(** * small_gicp_relocalization: the relocalization node, embedded and verified

    Shallow embedding of [src/small_gicp_relocalization.cpp]: the node
    [SmallGicpRelocalizationNode] with its constructor and its three
    callbacks ([registeredPcdCallback], [performRegistration],
    [publishTransform]).

    - Scalars are IEEE-754 values ([spec_float] of the Standard Library):
      [double] is binary64, [float] is binary32.
    - The fields of the node are a record; every callback is a function from
      the node to the new node and the list of events it caused (log lines,
      library calls, broadcast transforms).
    - small_gicp, PCL and the file system are external to the repository;
      they are the operations of the class [World]. *)

From Stdlib Require Import ZArith List Bool Lia.
From Stdlib Require Import Floats.SpecFloat.
From stdpp Require Import gmap strings.
Import ListNotations.

Set Default Proof Using "Type".

(** ** IEEE-754 scalars *)

Abbreviation double := spec_float (only parsing).
Abbreviation float := spec_float (only parsing).

Module F32.
Definition prec : Z := 24.
Definition emax : Z := 128.
Definition zero : float := S754_zero false.
Definition one : float := SFone prec emax.
Definition half : float := binary_round prec emax false 1 (-1).
Definition add : float -> float -> float := SFadd prec emax.
Definition sub : float -> float -> float := SFsub prec emax.
Definition mul : float -> float -> float := SFmul prec emax.
Definition div : float -> float -> float := SFdiv prec emax.
Definition sqrt : float -> float := SFsqrt prec emax.
Definition abs : float -> float := SFabs.
Definition leb : float -> float -> bool := SFleb.
Definition ltb : float -> float -> bool := SFltb.
(** [a > b] of C++: false as soon as one side is NaN. *)
Definition gtb (a b : float) : bool := SFltb b a.
(** [static_cast<float>(double)]: round to nearest, ties to even. *)
Definition of_double (x : double) : float :=
  match x with
  | S754_finite s m e => binary_round prec emax s m e
  | _ => x
  end.
End F32.

Module F64.
Definition prec : Z := 53.
Definition emax : Z := 1024.
Definition zero : double := S754_zero false.
Definition one : double := SFone prec emax.
(** The literal [0.25]. *)
Definition quarter : double := binary_round prec emax false 1 (-2).
(** Implicit conversion of a [float] to [double]: exact. *)
Definition of_float (x : float) : double :=
  match x with
  | S754_finite s m e => binary_round prec emax s m e
  | _ => x
  end.
End F64.

(** ** Eigen: fixed-size matrices and isometries *)

(** [Eigen::Matrix<A, 4, 1>]. *)
Record Vector4 (A : Type) : Type := MkVector4 { v0 : A; v1 : A; v2 : A; v3 : A }.
Arguments MkVector4 {A}.
Arguments v0 {A}.
Arguments v1 {A}.
Arguments v2 {A}.
Arguments v3 {A}.

(** [Eigen::Matrix<A, 4, 4>], given by its four rows. *)
Record Matrix4 (A : Type) : Type :=
  MkMatrix4 { row0 : Vector4 A; row1 : Vector4 A; row2 : Vector4 A; row3 : Vector4 A }.
Arguments MkMatrix4 {A}.
Arguments row0 {A}.
Arguments row1 {A}.
Arguments row2 {A}.
Arguments row3 {A}.

Abbreviation Matrix4f := (Matrix4 float) (only parsing).
Abbreviation Matrix4d := (Matrix4 double) (only parsing).

Definition vcoeff {A} (v : Vector4 A) (j : nat) : A :=
  match j with
  | 0 => v0 v
  | 1 => v1 v
  | 2 => v2 v
  | _ => v3 v
  end.

Definition row {A} (M : Matrix4 A) (i : nat) : Vector4 A :=
  match i with
  | 0 => row0 M
  | 1 => row1 M
  | 2 => row2 M
  | _ => row3 M
  end.

(** [M.coeff(i, j)], for [i, j < 4]. *)
Definition coeff {A} (M : Matrix4 A) (i j : nat) : A := vcoeff (row M i) j.

Definition vmap {A B} (f : A -> B) (v : Vector4 A) : Vector4 B :=
  MkVector4 (f (v0 v)) (f (v1 v)) (f (v2 v)) (f (v3 v)).

Definition mmap {A B} (f : A -> B) (M : Matrix4 A) : Matrix4 B :=
  MkMatrix4 (vmap f (row0 M)) (vmap f (row1 M)) (vmap f (row2 M)) (vmap f (row3 M)).

(** [M.cast<float>()]. *)
Definition cast_float (M : Matrix4d) : Matrix4f := mmap F32.of_double M.

(** [Matrix4f::Zero()] and [Matrix4f::Identity()]. *)
Definition Matrix4f_Zero : Matrix4f :=
  let z := F32.zero in
  MkMatrix4 (MkVector4 z z z z) (MkVector4 z z z z) (MkVector4 z z z z) (MkVector4 z z z z).

Definition Matrix4f_Identity : Matrix4f :=
  let z := F32.zero in
  let o := F32.one in
  MkMatrix4 (MkVector4 o z z z) (MkVector4 z o z z) (MkVector4 z z o z) (MkVector4 z z z o).

(** [NumTraits<float>::dummy_precision()], the literal [1e-5f]. *)
Definition dummy_precision : float := S754_finite false 10995116 (-40).

(** [internal::isMuchSmallerThan(x, y, prec)] on floats:
    [abs(x) <= abs(y) * prec]. *)
Definition isMuchSmallerThan (x y prec : float) : bool :=
  F32.leb (F32.abs x) (F32.mul (F32.abs y) prec).

(** The coefficients in the order [DenseBase::isZero] visits them:
    column by column, rows inside. *)
Definition coeffs_colmajor {A} (M : Matrix4 A) : list A :=
  flat_map (fun j => map (fun i => coeff M i j) (seq 0 4)) (seq 0 4).

(** [M.isZero()]: every coefficient is much smaller than 1. *)
Definition isZero (M : Matrix4f) : bool :=
  forallb (fun c => isMuchSmallerThan c F32.one dummy_precision) (coeffs_colmajor M).

(** [Eigen::Isometry3d]. Eigen stores a 4x4 matrix and keeps its last row
    at (0, 0, 0, 1) in every operation of an [Isometry] transform; the record
    holds the part that varies: the 3x3 linear part, row by row, and the
    translation. *)
Record Vector3 (A : Type) : Type := MkVector3 { vx : A; vy : A; vz : A }.
Arguments MkVector3 {A}.
Arguments vx {A}.
Arguments vy {A}.
Arguments vz {A}.

Record Isometry3d : Type := MkIsometry3d {
  linear0 : Vector3 double;
  linear1 : Vector3 double;
  linear2 : Vector3 double;
  translation : Vector3 double
}.

(** [Eigen::Isometry3d::Identity()]. *)
Definition Isometry3d_Identity : Isometry3d :=
  let z := F64.zero in
  let o := F64.one in
  MkIsometry3d (MkVector3 o z z) (MkVector3 z o z) (MkVector3 z z o) (MkVector3 z z z).

(** [T.matrix()]: the homogeneous 4x4 matrix of the isometry. *)
Definition matrix (T : Isometry3d) : Matrix4d :=
  let r (l : Vector3 double) (t : double) := MkVector4 (vx l) (vy l) (vz l) t in
  MkMatrix4 (r (linear0 T) (vx (translation T)))
            (r (linear1 T) (vy (translation T)))
            (r (linear2 T) (vz (translation T)))
            (MkVector4 F64.zero F64.zero F64.zero F64.one).

(** [Eigen::Quaternionf], coefficients stored as x, y, z, w. *)
Record Quaternionf : Type := MkQuaternionf { qx : float; qy : float; qz : float; qw : float }.

(** Writes coefficient [i] of the vector part ([q.coeffs().coeffRef(i)]). *)
Definition set_qcoeff (q : Quaternionf) (i : nat) (v : float) : Quaternionf :=
  match i with
  | 0 => MkQuaternionf v (qy q) (qz q) (qw q)
  | 1 => MkQuaternionf (qx q) v (qz q) (qw q)
  | 2 => MkQuaternionf (qx q) (qy q) v (qw q)
  | _ => MkQuaternionf (qx q) (qy q) (qz q) v
  end.

(** [Quaternionf(mat)] for a 3x3 matrix expression [mat]: Eigen's conversion
    after Shoemake. *)
Definition Quaternionf_of_matrix (mat : nat -> nat -> float) : Quaternionf :=
  let t := F32.add (mat 0 0) (F32.add (mat 1 1) (mat 2 2)) in
  if F32.gtb t F32.zero then
    let t1 := F32.sqrt (F32.add t F32.one) in
    let w := F32.mul F32.half t1 in
    let t2 := F32.div F32.half t1 in
    MkQuaternionf (F32.mul (F32.sub (mat 2 1) (mat 1 2)) t2)
                  (F32.mul (F32.sub (mat 0 2) (mat 2 0)) t2)
                  (F32.mul (F32.sub (mat 1 0) (mat 0 1)) t2)
                  w
  else
    let i0 := if F32.gtb (mat 1 1) (mat 0 0) then 1 else 0 in
    let i := if F32.gtb (mat 2 2) (mat i0 i0) then 2 else i0 in
    let j := (i + 1) mod 3 in
    let k := (j + 1) mod 3 in
    let t1 := F32.sqrt (F32.add (F32.sub (F32.sub (mat i i) (mat j j)) (mat k k)) F32.one) in
    let t2 := F32.div F32.half t1 in
    let q0 := MkQuaternionf F32.zero F32.zero F32.zero F32.zero in
    let q1 := set_qcoeff q0 i (F32.mul F32.half t1) in
    let q2 := set_qcoeff q1 3 (F32.mul (F32.sub (mat k j) (mat j k)) t2) in
    let q3 := set_qcoeff q2 j (F32.mul (F32.add (mat j i) (mat i j)) t2) in
    set_qcoeff q3 k (F32.mul (F32.add (mat k i) (mat i k)) t2).

(** [M.block<r, c>(i0, j0)] as a matrix expression. *)
Definition block {A} (M : Matrix4 A) (i0 j0 : nat) : nat -> nat -> A :=
  fun i j => coeff M (i0 + i) (j0 + j).

(** ** ROS and PCL data *)

(** [builtin_interfaces::msg::Time]. *)
Record Time : Type := MkTime { sec : Z; nanosec : Z }.

(** [pcl::PointXYZ] and [pcl::PointCloud<pcl::PointXYZ>]. *)
Record PointXYZ : Type := MkPointXYZ { px : float; py : float; pz : float }.
Abbreviation PointCloud := (list PointXYZ) (only parsing).

(** [pcl::PointCovariance] and its cloud. *)
Record PointCovariance : Type := MkPointCovariance { point : PointXYZ; cov : Matrix4f }.
Abbreviation PointCloudCov := (list PointCovariance) (only parsing).

(** [sensor_msgs::msg::PointCloud2], with its payload already decoded:
    [pcl::fromROSMsg] returns [pc2_points]. *)
Record PointCloud2 : Type := MkPointCloud2 {
  header_stamp : Time;
  header_frame_id : string;
  pc2_points : PointCloud
}.

Definition fromROSMsg (msg : PointCloud2) : PointCloud := pc2_points msg.

(** [geometry_msgs::msg::TransformStamped]; its scalars are [float64]. *)
Record TransformStamped : Type := MkTransformStamped {
  stamp : Time;
  frame_id : string;
  child_frame_id : string;
  translation_x : double;
  translation_y : double;
  translation_z : double;
  rotation_x : double;
  rotation_y : double;
  rotation_z : double;
  rotation_w : double
}.

(** ** small_gicp *)

(** The two settings of [small_gicp::Registration] the node writes:
    [reduction.num_threads] and [rejector.max_dist_sq]. *)
Record Registration : Type := MkRegistration {
  reduction_num_threads : Z;
  rejector_max_dist_sq : double
}.

Definition set_reduction_num_threads (r : Registration) (v : Z) : Registration :=
  MkRegistration v (rejector_max_dist_sq r).

Definition set_rejector_max_dist_sq (r : Registration) (v : double) : Registration :=
  MkRegistration (reduction_num_threads r) v.

(** A default-constructed [Registration]: small_gicp's own defaults. *)
Definition Registration_default : Registration := MkRegistration 4 F64.one.

(** [small_gicp::RegistrationResult] (without the linearized system). *)
Record RegistrationResult : Type := MkRegistrationResult {
  T_target_source : Isometry3d;
  converged : bool;
  iterations : Z;
  num_inliers : Z;
  error : double
}.

(** [small_gicp::KdTree<pcl::PointCloud<pcl::PointCovariance>>]: the cloud it
    indexes, the permutation of the point indices and the nodes. A node is a
    leaf over a range of the permutation, or splits its range at a threshold
    along an axis between its two children. *)
Record KdTreeNode : Type := MkKdTreeNode {
  node_left : Z;
  node_right : Z;
  node_first : Z;
  node_last : Z;
  node_axis : Z;
  node_thresh : double
}.

Record KdTree : Type := MkKdTree {
  kd_points : PointCloudCov;
  kd_indices : list Z;
  kd_nodes : list KdTreeNode
}.

(** The operations of the libraries and of the file system the node calls,
    and the one value the absent header fixes. They are not code under the
    sources, so the node is verified for every behaviour they may have. *)
Class World : Type := MkWorld {
  (** [pcl::io::loadPCDFile]: the cloud of the file, [None] when the call
      returns -1. *)
  loadPCDFile : string -> option PointCloud;
  (** [small_gicp::voxelgrid_sampling_omp(points, leaf_size)]. *)
  voxelgrid_sampling_omp : PointCloud -> double -> PointCloudCov;
  (** [small_gicp::estimate_covariances_omp(cloud, num_neighbors, num_threads)]:
      the cloud after the in-place update. *)
  estimate_covariances_omp : PointCloudCov -> Z -> Z -> PointCloudCov;
  (** [KdTree(points, KdTreeBuilderOMP(num_threads))]. *)
  KdTreeOMP : PointCloudCov -> Z -> KdTree;
  (** [register_->align(target, source, target_tree, init_T)]. *)
  align : Registration -> PointCloudCov -> PointCloudCov -> KdTree -> Isometry3d ->
          RegistrationResult;
  (** What [last_scan_time_] holds before the first scan. The header that
      declares the member is not among the sources and the spec does not
      give the value, so it is left open. *)
  initial_last_scan_time : Time
}.

(** ** rclcpp parameters *)

Inductive ParameterValue : Type :=
| PBool (b : bool)
| PInteger (i : Z)
| PDouble (d : double)
| PString (s : string).

Inductive ParameterType : Type := TBool | TInteger | TDouble | TString.

Definition type_of (v : ParameterValue) : ParameterType :=
  match v with
  | PBool _ => TBool
  | PInteger _ => TInteger
  | PDouble _ => TDouble
  | PString _ => TString
  end.

Definition ParameterType_eqb (a b : ParameterType) : bool :=
  match a, b with
  | TBool, TBool | TInteger, TInteger | TDouble, TDouble | TString, TString => true
  | _, _ => false
  end.

(** What construction can throw. *)
Inductive Exception : Type :=
| InvalidParameterTypeException (name : string)
| ParameterNotDeclaredException (name : string).

Inductive Result (A : Type) : Type :=
| Ok (a : A)
| Throw (e : Exception).
Arguments Ok {A}.
Arguments Throw {A}.

Definition bind {A B} (r : Result A) (k : A -> Result B) : Result B :=
  match r with
  | Ok a => k a
  | Throw e => Throw e
  end.

Notation "x <- r ;; k" := (bind r (fun x => k))
  (at level 62, r at next level, right associativity).

(** [NodeOptions::parameter_overrides], by name. *)
Abbreviation Overrides := (gmap string ParameterValue) (only parsing).

(** [declare_parameter(name, default_value)]: the override when there is one,
    which must have the type of the default; the default otherwise. *)
Definition declare_parameter (overrides : Overrides) (name : string)
    (default_value : ParameterValue) : Result ParameterValue :=
  match overrides !! name with
  | Some v =>
      if ParameterType_eqb (type_of v) (type_of default_value) then Ok v
      else Throw (InvalidParameterTypeException name)
  | None => Ok default_value
  end.

(** [static_cast<int>] of an [int64_t]: the value modulo 2^32, in
    [-2^31, 2^31). *)
Definition static_cast_int (i : Z) : Z := ((i + 2 ^ 31) mod 2 ^ 32 - 2 ^ 31)%Z.

(** [get_parameter(name, field)] for the three field types. An integer
    parameter is an [int64_t]; read into an [int] field it is narrowed. *)
Definition get_integer (name : string) (v : ParameterValue) : Result Z :=
  match v with
  | PInteger i => Ok (static_cast_int i)
  | _ => Throw (InvalidParameterTypeException name)
  end.

Definition get_double (name : string) (v : ParameterValue) : Result double :=
  match v with
  | PDouble d => Ok d
  | _ => Throw (InvalidParameterTypeException name)
  end.

Definition get_string (name : string) (v : ParameterValue) : Result string :=
  match v with
  | PString s => Ok s
  | _ => Throw (InvalidParameterTypeException name)
  end.

(** ** The node *)

(** Modelled from the spec: the header that declares the fields of the node
    is not among the sources. [num_threads_] and [num_neighbors_] are [int]
    (the type small_gicp takes them in), held as the integer they denote; the
    real parameters are kept as the [double] of their parameter. [source_]
    and [source_tree_] are shared pointers that start out null, and
    [result_T_] starts as the all-zero matrix, which stands for "no result
    yet". [target_] and [target_tree_] are assigned by the constructor before
    any callback exists and never again, so they are plain values. *)
Record Node : Type := MkNode {
  num_threads_ : Z;
  num_neighbors_ : Z;
  global_leaf_size_ : double;
  registered_leaf_size_ : double;
  max_dist_sq_ : double;
  map_frame_id_ : string;
  odom_frame_id_ : string;
  prior_pcd_file_ : string;
  registered_scan_ : PointCloud;
  global_map_ : PointCloud;
  register_ : Registration;
  target_ : PointCloudCov;
  target_tree_ : KdTree;
  source_ : option PointCloudCov;
  source_tree_ : option KdTree;
  last_scan_time_ : Time;
  result_T_ : Matrix4f
}.

(** Modelled from the spec: the initial value of [result_T_], which the
    constructor does not assign (see [Node]). *)
Definition initial_result_T : Matrix4f := Matrix4f_Zero.

(** What a callback does to the outside, in order. *)
Inductive LogArg : Type :=
| ArgString (s : string)
| ArgSize (n : nat).

Inductive Event : Type :=
| RCLCPP_ERROR (format : string) (args : list LogArg)
| RCLCPP_WARN (format : string) (args : list LogArg)
| RCLCPP_INFO (format : string) (args : list LogArg)
| CallLoadPCDFile (file_name : string)
| CallAlign (reg : Registration) (target source : PointCloudCov) (target_tree : KdTree)
    (init_T : Isometry3d) (result : RegistrationResult)
| SendTransform (msg : TransformStamped).

Section Node.
Context `{W : World}.

Definition set_registered_scan_ (n : Node) (v : PointCloud) : Node :=
  MkNode (num_threads_ n) (num_neighbors_ n) (global_leaf_size_ n) (registered_leaf_size_ n)
    (max_dist_sq_ n) (map_frame_id_ n) (odom_frame_id_ n) (prior_pcd_file_ n)
    v (global_map_ n) (register_ n) (target_ n) (target_tree_ n)
    (source_ n) (source_tree_ n) (last_scan_time_ n) (result_T_ n).

Definition set_register_ (n : Node) (v : Registration) : Node :=
  MkNode (num_threads_ n) (num_neighbors_ n) (global_leaf_size_ n) (registered_leaf_size_ n)
    (max_dist_sq_ n) (map_frame_id_ n) (odom_frame_id_ n) (prior_pcd_file_ n)
    (registered_scan_ n) (global_map_ n) v (target_ n) (target_tree_ n)
    (source_ n) (source_tree_ n) (last_scan_time_ n) (result_T_ n).

Definition set_source_ (n : Node) (v : option PointCloudCov) : Node :=
  MkNode (num_threads_ n) (num_neighbors_ n) (global_leaf_size_ n) (registered_leaf_size_ n)
    (max_dist_sq_ n) (map_frame_id_ n) (odom_frame_id_ n) (prior_pcd_file_ n)
    (registered_scan_ n) (global_map_ n) (register_ n) (target_ n) (target_tree_ n)
    v (source_tree_ n) (last_scan_time_ n) (result_T_ n).

Definition set_source_tree_ (n : Node) (v : option KdTree) : Node :=
  MkNode (num_threads_ n) (num_neighbors_ n) (global_leaf_size_ n) (registered_leaf_size_ n)
    (max_dist_sq_ n) (map_frame_id_ n) (odom_frame_id_ n) (prior_pcd_file_ n)
    (registered_scan_ n) (global_map_ n) (register_ n) (target_ n) (target_tree_ n)
    (source_ n) v (last_scan_time_ n) (result_T_ n).

Definition set_last_scan_time_ (n : Node) (v : Time) : Node :=
  MkNode (num_threads_ n) (num_neighbors_ n) (global_leaf_size_ n) (registered_leaf_size_ n)
    (max_dist_sq_ n) (map_frame_id_ n) (odom_frame_id_ n) (prior_pcd_file_ n)
    (registered_scan_ n) (global_map_ n) (register_ n) (target_ n) (target_tree_ n)
    (source_ n) (source_tree_ n) v (result_T_ n).

Definition set_result_T_ (n : Node) (v : Matrix4f) : Node :=
  MkNode (num_threads_ n) (num_neighbors_ n) (global_leaf_size_ n) (registered_leaf_size_ n)
    (max_dist_sq_ n) (map_frame_id_ n) (odom_frame_id_ n) (prior_pcd_file_ n)
    (registered_scan_ n) (global_map_ n) (register_ n) (target_ n) (target_tree_ n)
    (source_ n) (source_tree_ n) (last_scan_time_ n) v.

(** [loadGlobalMap(file_name)], on the one field it writes, [global_map_]. *)
Definition loadGlobalMap (file_name : string) (global_map : PointCloud)
    : PointCloud * list Event :=
  match loadPCDFile file_name with
  | None =>
      (global_map,
       [CallLoadPCDFile file_name;
        RCLCPP_ERROR "Couldn't read PCD file: %s" [ArgString file_name]])
  | Some cloud =>
      (cloud,
       [CallLoadPCDFile file_name;
        RCLCPP_INFO "Loaded global map with %zu points" [ArgSize (length cloud)]])
  end.

(** The constructor. The subscription and the two timers it creates are the
    inputs of [step] below. *)
Definition SmallGicpRelocalizationNode (overrides : Overrides) : Result (Node * list Event) :=
  p_num_threads <- declare_parameter overrides "num_threads" (PInteger 4) ;;
  p_num_neighbors <- declare_parameter overrides "num_neighbors" (PInteger 20) ;;
  p_global_leaf_size <- declare_parameter overrides "global_leaf_size" (PDouble F64.quarter) ;;
  p_registered_leaf_size <-
    declare_parameter overrides "registered_leaf_size" (PDouble F64.quarter) ;;
  p_max_dist_sq <- declare_parameter overrides "max_dist_sq" (PDouble F64.one) ;;
  p_map_frame_id <- declare_parameter overrides "map_frame_id" (PString "map") ;;
  p_odom_frame_id <- declare_parameter overrides "odom_frame_id" (PString "odom") ;;
  p_prior_pcd_file <- declare_parameter overrides "prior_pcd_file" (PString "") ;;
  num_threads <- get_integer "num_threads" p_num_threads ;;
  num_neighbors <- get_integer "num_neighbors" p_num_neighbors ;;
  global_leaf_size <- get_double "global_leaf_size" p_global_leaf_size ;;
  registered_leaf_size <- get_double "registered_leaf_size" p_registered_leaf_size ;;
  max_dist_sq <- get_double "max_dist_sq" p_max_dist_sq ;;
  map_frame_id <- get_string "map_frame_id" p_map_frame_id ;;
  odom_frame_id <- get_string "odom_frame_id" p_odom_frame_id ;;
  prior_pcd_file <- get_string "prior_pcd_file" p_prior_pcd_file ;;
  let registered_scan : PointCloud := [] in
  let global_map0 : PointCloud := [] in
  let register := Registration_default in
  let '(global_map, events) := loadGlobalMap prior_pcd_file global_map0 in
  let target0 := voxelgrid_sampling_omp global_map global_leaf_size in
  let target := estimate_covariances_omp target0 num_neighbors num_threads in
  let target_tree := KdTreeOMP target num_threads in
  Ok (MkNode num_threads num_neighbors global_leaf_size registered_leaf_size max_dist_sq
        map_frame_id odom_frame_id prior_pcd_file
        registered_scan global_map register target target_tree
        None None initial_last_scan_time initial_result_T,
      events).

(** [registeredPcdCallback(msg)]. *)
Definition registeredPcdCallback (msg : PointCloud2) (n : Node) : Node * list Event :=
  let n1 := set_last_scan_time_ n (header_stamp msg) in
  let n2 := set_registered_scan_ n1 (fromROSMsg msg) in
  let source0 := voxelgrid_sampling_omp (registered_scan_ n2) (registered_leaf_size_ n2) in
  let source := estimate_covariances_omp source0 (num_neighbors_ n2) (num_threads_ n2) in
  let n3 := set_source_ n2 (Some source) in
  let n4 := set_source_tree_ n3 (Some (KdTreeOMP source (num_threads_ n3))) in
  (n4, []).

(** [performRegistration()]. *)
Definition performRegistration (n : Node) : Node * list Event :=
  match source_ n, source_tree_ n with
  | Some source, Some _ =>
      let n1 := set_register_ n (set_reduction_num_threads (register_ n) (num_threads_ n)) in
      let n2 := set_register_ n1 (set_rejector_max_dist_sq (register_ n1) (max_dist_sq_ n1)) in
      let result :=
        align (register_ n2) (target_ n2) source (target_tree_ n2) Isometry3d_Identity in
      let call :=
        CallAlign (register_ n2) (target_ n2) source (target_tree_ n2) Isometry3d_Identity
          result in
      if negb (converged result) then
        (n2, [call; RCLCPP_WARN "GICP did not converge." []])
      else
        (set_result_T_ n2 (cast_float (matrix (T_target_source result))), [call])
  | _, _ => (n, [])
  end.

(** [publishTransform()]. *)
Definition publishTransform (n : Node) : Node * list Event :=
  if isZero (result_T_ n) then (n, [])
  else
    let translation := block (result_T_ n) 0 3 in
    let rotation := Quaternionf_of_matrix (block (result_T_ n) 0 0) in
    let transform_stamped :=
      MkTransformStamped (last_scan_time_ n) (map_frame_id_ n) (odom_frame_id_ n)
        (F64.of_float (translation 0 0))
        (F64.of_float (translation 1 0))
        (F64.of_float (translation 2 0))
        (F64.of_float (qx rotation))
        (F64.of_float (qy rotation))
        (F64.of_float (qz rotation))
        (F64.of_float (qw rotation)) in
    (n, [SendTransform transform_stamped]).

(** ** The executor *)

(** What the executor can deliver: a message of the subscription, a tick of
    [register_timer_], a tick of [transform_timer_]. The three callbacks are
    in the node's default callback group, which is mutually exclusive: each
    runs to its end before the next starts. *)
Inductive Input : Type :=
| RegisteredScan (msg : PointCloud2)
| RegisterTimer
| TransformTimer.

Definition step (n : Node) (i : Input) : Node * list Event :=
  match i with
  | RegisteredScan msg => registeredPcdCallback msg n
  | RegisterTimer => performRegistration n
  | TransformTimer => publishTransform n
  end.

(** The node and the events after the inputs, delivered in order. *)
Fixpoint run (n : Node) (inputs : list Input) : Node * list Event :=
  match inputs with
  | [] => (n, [])
  | i :: rest =>
      let '(n1, events1) := step n i in
      let '(n2, events2) := run n1 rest in
      (n2, events1 ++ events2)
  end.

End Node.

(** ** Observations on inputs and events *)

Definition is_scan (i : Input) : bool :=
  match i with
  | RegisteredScan _ => true
  | _ => false
  end.

(** The most recent scan among the inputs, if any. *)
Fixpoint last_scan (inputs : list Input) : option PointCloud2 :=
  match inputs with
  | [] => None
  | i :: rest =>
      match last_scan rest with
      | Some msg => Some msg
      | None =>
          match i with
          | RegisteredScan msg => Some msg
          | _ => None
          end
      end
  end.

Definition is_align (e : Event) : bool :=
  match e with
  | CallAlign _ _ _ _ _ _ => true
  | _ => false
  end.

(** An alignment that returned with [converged = true]. *)
Definition is_converged_align (e : Event) : bool :=
  match e with
  | CallAlign _ _ _ _ _ result => converged result
  | _ => false
  end.

Definition is_send (e : Event) : bool :=
  match e with
  | SendTransform _ => true
  | _ => false
  end.

Definition is_load (e : Event) : bool :=
  match e with
  | CallLoadPCDFile _ => true
  | _ => false
  end.

Definition is_error (e : Event) : bool :=
  match e with
  | RCLCPP_ERROR _ _ => true
  | _ => false
  end.

(** ** Notions the properties are stated with *)

(** The result of the most recent alignment of the trace that converged. *)
Fixpoint latest_converged (trace : list Event) : option RegistrationResult :=
  match trace with
  | [] => None
  | e :: rest =>
      match latest_converged rest with
      | Some r => Some r
      | None =>
          match e with
          | CallAlign _ _ _ _ _ r => if converged r then Some r else None
          | _ => None
          end
      end
  end.

(** The last row of the matrix of a rigid transform, in single precision. *)
Definition affine_row : Vector4 float := MkVector4 F32.zero F32.zero F32.zero F32.one.

Section Notions.
Context `{W : World}.

(** The settings, the result and the logged call of the alignment that
    [performRegistration] makes in node [n] on the source [source]. *)
Definition registration_settings (n : Node) : Registration :=
  MkRegistration (num_threads_ n) (max_dist_sq_ n).

Definition registration_result (n : Node) (source : PointCloudCov) : RegistrationResult :=
  align (registration_settings n) (target_ n) source (target_tree_ n) Isometry3d_Identity.

Definition registration_call (n : Node) (source : PointCloudCov) : Event :=
  CallAlign (registration_settings n) (target_ n) source (target_tree_ n) Isometry3d_Identity
    (registration_result n source).

(** The three ways out of [performRegistration]. *)
Inductive RegistrationOutcome (n : Node) : Node * list Event -> Prop :=
| Skipped :
    source_ n = None \/ source_tree_ n = None ->
    RegistrationOutcome n (n, [])
| NotConverged source tree :
    source_ n = Some source ->
    source_tree_ n = Some tree ->
    converged (registration_result n source) = false ->
    RegistrationOutcome n
      (set_register_ n (registration_settings n),
       [registration_call n source; RCLCPP_WARN "GICP did not converge." []])
| Converged source tree :
    source_ n = Some source ->
    source_tree_ n = Some tree ->
    converged (registration_result n source) = true ->
    RegistrationOutcome n
      (set_result_T_ (set_register_ n (registration_settings n))
         (cast_float (matrix (T_target_source (registration_result n source)))),
       [registration_call n source]).

(** The message [publishTransform] sends from node [n]. *)
Definition transform_of (n : Node) : TransformStamped :=
  let rotation := Quaternionf_of_matrix (block (result_T_ n) 0 0) in
  MkTransformStamped (last_scan_time_ n) (map_frame_id_ n) (odom_frame_id_ n)
    (F64.of_float (coeff (result_T_ n) 0 3))
    (F64.of_float (coeff (result_T_ n) 1 3))
    (F64.of_float (coeff (result_T_ n) 2 3))
    (F64.of_float (qx rotation)) (F64.of_float (qy rotation))
    (F64.of_float (qz rotation)) (F64.of_float (qw rotation)).

(** The configuration and the target of [n'] are those of [n]. *)
Definition same_setup (n n' : Node) : Prop :=
  num_threads_ n' = num_threads_ n /\
  num_neighbors_ n' = num_neighbors_ n /\
  global_leaf_size_ n' = global_leaf_size_ n /\
  registered_leaf_size_ n' = registered_leaf_size_ n /\
  max_dist_sq_ n' = max_dist_sq_ n /\
  map_frame_id_ n' = map_frame_id_ n /\
  odom_frame_id_ n' = odom_frame_id_ n /\
  prior_pcd_file_ n' = prior_pcd_file_ n /\
  global_map_ n' = global_map_ n /\
  target_ n' = target_ n /\
  target_tree_ n' = target_tree_ n.

(** An override of [name], when supplied, has type [ty]. *)
Definition well_typed (overrides : Overrides) (name : string) (ty : ParameterType) : bool :=
  match overrides !! name with
  | Some v => ParameterType_eqb (type_of v) ty
  | None => true
  end.

Definition all_well_typed (overrides : Overrides) : bool :=
  well_typed overrides "num_threads" TInteger &&
  well_typed overrides "num_neighbors" TInteger &&
  well_typed overrides "global_leaf_size" TDouble &&
  well_typed overrides "registered_leaf_size" TDouble &&
  well_typed overrides "max_dist_sq" TDouble &&
  well_typed overrides "map_frame_id" TString &&
  well_typed overrides "odom_frame_id" TString &&
  well_typed overrides "prior_pcd_file" TString.

(** The [int64_t] value of an integer parameter once declared. *)
Definition declared_integer (overrides : Overrides) (name : string) (default_value : Z) : Z :=
  match overrides !! name with
  | Some (PInteger i) => i
  | _ => default_value
  end.

(** The supplied value of a parameter, the default when none is supplied;
    for an integer, as the [int] field receives it. *)
Definition configured_integer (overrides : Overrides) (name : string) (default_value : Z) : Z :=
  match overrides !! name with
  | Some (PInteger i) => static_cast_int i
  | _ => static_cast_int default_value
  end.

Definition configured_double (overrides : Overrides) (name : string) (default_value : double)
    : double :=
  match overrides !! name with
  | Some (PDouble x) => x
  | _ => default_value
  end.

Definition configured_string (overrides : Overrides) (name : string) (default_value : string)
    : string :=
  match overrides !! name with
  | Some (PString s) => s
  | _ => default_value
  end.


(** The node and the events of a construction that does not throw. *)
Definition constructed (overrides : Overrides) : Node * list Event :=
  let num_threads := configured_integer overrides "num_threads" 4 in
  let num_neighbors := configured_integer overrides "num_neighbors" 20 in
  let global_leaf_size := configured_double overrides "global_leaf_size" F64.quarter in
  let loaded := loadGlobalMap (configured_string overrides "prior_pcd_file" "") [] in
  let target :=
    estimate_covariances_omp (voxelgrid_sampling_omp loaded.1 global_leaf_size)
      num_neighbors num_threads in
  (MkNode num_threads num_neighbors global_leaf_size
     (configured_double overrides "registered_leaf_size" F64.quarter)
     (configured_double overrides "max_dist_sq" F64.one)
     (configured_string overrides "map_frame_id" "map")
     (configured_string overrides "odom_frame_id" "odom")
     (configured_string overrides "prior_pcd_file" "")
     [] loaded.1 Registration_default target (KdTreeOMP target num_threads)
     None None initial_last_scan_time initial_result_T,
   loaded.2).

(** The matrix a trace leaves in [result_T_], starting from [before]. *)
Definition stored_result (before : Matrix4f) (trace : list Event) : Matrix4f :=
  match latest_converged trace with
  | Some r => cast_float (matrix (T_target_source r))
  | None => before
  end.

(** The cloud [registeredPcdCallback] installs for [msg]. *)
Definition preprocessed (n : Node) (msg : PointCloud2) : PointCloudCov :=
  estimate_covariances_omp (voxelgrid_sampling_omp (fromROSMsg msg) (registered_leaf_size_ n))
    (num_neighbors_ n) (num_threads_ n).

(** The cloud, its tree and the scan time all come from one message. *)
Definition snapshot_of (n : Node) (msg : PointCloud2) : Prop :=
  source_ n = Some (preprocessed n msg) /\
  source_tree_ n = Some (KdTreeOMP (preprocessed n msg) (num_threads_ n)) /\
  last_scan_time_ n = header_stamp msg.

End Notions.

(** ** Counting inputs and events *)

(** How many elements of [l] satisfy [f]. *)
Fixpoint count {A : Type} (f : A -> bool) (l : list A) : nat :=
  match l with
  | [] => 0
  | x :: rest => (if f x then 1 else 0) + count f rest
  end.

Definition is_register_timer (i : Input) : bool :=
  match i with
  | RegisterTimer => true
  | _ => false
  end.

Definition is_transform_timer (i : Input) : bool :=
  match i with
  | TransformTimer => true
  | _ => false
  end.

Definition is_warn (e : Event) : bool :=
  match e with
  | RCLCPP_WARN _ _ => true
  | _ => false
  end.

(** An alignment that returned with [converged = false]. *)
Definition is_nonconverged_align (e : Event) : bool :=
  match e with
  | CallAlign _ _ _ _ _ result => negb (converged result)
  | _ => false
  end.

(** The events a callback can cause: an alignment call, the warning of
    [performRegistration], a broadcast transform. *)
Definition is_callback_event (e : Event) : bool :=
  match e with
  | CallAlign _ _ _ _ _ _ => true
  | RCLCPP_WARN format [] => String.eqb format "GICP did not converge."
  | SendTransform _ => true
  | _ => false
  end.

(** ** A small concrete world, to run the node on *)

Module Example_world.

(** 2^e as a double and as a float, for small literals. *)
Definition d (s : bool) (m : positive) (e : Z) : double := binary_round F64.prec F64.emax s m e.
Definition f (s : bool) (m : positive) (e : Z) : float := binary_round F32.prec F32.emax s m e.

(** One file exists, [map.pcd], with two points. *)
Definition files (file_name : string) : option PointCloud :=
  if String.eqb file_name "map.pcd"
  then Some [MkPointXYZ F32.zero F32.zero F32.zero; MkPointXYZ F32.one F32.zero F32.zero]
  else None.

(** Keeps every point (no grid). *)
Definition voxelgrid (points : PointCloud) (leaf_size : double) : PointCloudCov :=
  map (fun p => MkPointCovariance p Matrix4f_Zero) points.

(** Moves the first source point onto the first target point, and converges
    when their squared distance is within [max_dist_sq]; with no pair of
    points to match there is nothing to correct and the guess is returned as
    converged. *)
Definition first_point_align (reg : Registration) (target source : PointCloudCov)
    (tree : KdTree) (init_T : Isometry3d) : RegistrationResult :=
  match target, source with
  | t :: _, s :: _ =>
      let dx := SFsub F64.prec F64.emax (F64.of_float (px (point t))) (F64.of_float (px (point s))) in
      let dy := SFsub F64.prec F64.emax (F64.of_float (py (point t))) (F64.of_float (py (point s))) in
      let dz := SFsub F64.prec F64.emax (F64.of_float (pz (point t))) (F64.of_float (pz (point s))) in
      let sq v := SFmul F64.prec F64.emax v v in
      let d2 := SFadd F64.prec F64.emax (SFadd F64.prec F64.emax (sq dx) (sq dy)) (sq dz) in
      MkRegistrationResult
        (MkIsometry3d (linear0 init_T) (linear1 init_T) (linear2 init_T) (MkVector3 dx dy dz))
        (SFleb d2 (rejector_max_dist_sq reg)) 1 1 d2
  | _, _ => MkRegistrationResult init_T true 0 0 F64.zero
  end.

#[local] Instance world : World :=
  MkWorld files voxelgrid (fun cloud _ _ => cloud) (fun cloud _ => MkKdTree cloud [] [])
    first_point_align (MkTime 0 0).

Definition scan (t : Z) (x : float) : PointCloud2 :=
  MkPointCloud2 (MkTime t 0) "lidar" [MkPointXYZ x F32.zero F32.zero].

(** A scan half a metre off the first map point: within the default
    [max_dist_sq]. *)
Definition near_scan (t : Z) : PointCloud2 := scan t F32.half.

(** A scan four metres off: beyond it. *)
Definition far_scan (t : Z) : PointCloud2 := scan t (f false 4 0).

Definition with_map : Overrides := {[ "prior_pcd_file" := PString "map.pcd" ]}.

(** The node built with the given overrides; a blank node stands in when
    construction throws. *)
Definition node_of (overrides : Overrides) : Node :=
  match SmallGicpRelocalizationNode overrides with
  | Ok (n, _) => n
  | Throw _ =>
      MkNode 0 0 F64.zero F64.zero F64.zero "" "" "" [] [] Registration_default []
        (MkKdTree [] [] []) None None initial_last_scan_time initial_result_T
  end.

End Example_world.

(** ** The scalars and matrices, computed *)

Example one_is_1f : F32.one = S754_finite false 8388608 (-23).
Proof. reflexivity. Qed.

Example cast_one : F32.of_double F64.one = F32.one.
Proof. reflexivity. Qed.

Example dummy_precision_is_1e_5 :
  F32.div F32.one (binary_round F32.prec F32.emax false 100000 0) = dummy_precision.
Proof. vm_compute. reflexivity. Qed.

Example isZero_Zero : isZero Matrix4f_Zero = true.
Proof. reflexivity. Qed.

Example isZero_Identity : isZero Matrix4f_Identity = false.
Proof. reflexivity. Qed.

Example cast_Identity : cast_float (matrix Isometry3d_Identity) = Matrix4f_Identity.
Proof. reflexivity. Qed.

Example quat_Identity :
  Quaternionf_of_matrix (block Matrix4f_Identity 0 0)
  = MkQuaternionf F32.zero F32.zero F32.zero F32.one.
Proof. vm_compute. reflexivity. Qed.

(** ** How the callbacks act on the node *)

Section Callbacks.
Context `{W : World}.

(** [performRegistration] with its two writes to [register_] merged. *)
Lemma performRegistration_eq (n : Node) :
  performRegistration n =
  match source_ n, source_tree_ n with
  | Some source, Some _ =>
      if converged (registration_result n source)
      then (set_result_T_ (set_register_ n (registration_settings n))
              (cast_float (matrix (T_target_source (registration_result n source)))),
            [registration_call n source])
      else (set_register_ n (registration_settings n),
            [registration_call n source; RCLCPP_WARN "GICP did not converge." []])
  | _, _ => (n, [])
  end.
Proof.
  unfold performRegistration, registration_call, registration_result, registration_settings.
  destruct (source_ n) as [source|]; [|done].
  destruct (source_tree_ n) as [tree|]; [|done].
  cbn. by destruct (converged _).
Qed.

Lemma performRegistration_outcome (n : Node) :
  RegistrationOutcome n (performRegistration n).
Proof.
  rewrite performRegistration_eq.
  destruct (source_ n) as [source|] eqn:Hs; [|constructor; by left].
  destruct (source_tree_ n) as [tree|] eqn:Ht; [|constructor; by right].
  destruct (converged (registration_result n source)) eqn:Hc.
  - by apply Converged with tree.
  - by apply NotConverged with tree.
Qed.

Lemma publishTransform_absent (n : Node) :
  isZero (result_T_ n) = true -> publishTransform n = (n, []).
Proof. intros Hz. unfold publishTransform. by rewrite Hz. Qed.

Lemma publishTransform_present (n : Node) :
  isZero (result_T_ n) = false -> publishTransform n = (n, [SendTransform (transform_of n)]).
Proof. intros Hz. unfold publishTransform. by rewrite Hz. Qed.

Lemma publishTransform_node (n : Node) : (publishTransform n).1 = n.
Proof. unfold publishTransform. by destruct (isZero (result_T_ n)). Qed.


(** *** Runs *)

Lemma run_app (n : Node) (xs ys : list Input) :
  run n (xs ++ ys) = ((run (run n xs).1 ys).1, (run n xs).2 ++ (run (run n xs).1 ys).2).
Proof.
  revert n. induction xs as [|i xs IH]; intros n; cbn.
  - by destruct (run n ys).
  - destruct (step n i) as [n1 e1]. rewrite IH.
    destruct (run n1 xs) as [n2 e2]; cbn.
    destruct (run n2 ys) as [n3 e3]; cbn.
    by rewrite app_assoc.
Qed.

Lemma run_cons (n : Node) (i : Input) (rest : list Input) :
  run n (i :: rest) = ((run (step n i).1 rest).1, (step n i).2 ++ (run (step n i).1 rest).2).
Proof.
  cbn. destruct (step n i) as [n1 e1]; cbn. by destruct (run n1 rest).
Qed.

Lemma run_snoc (n : Node) (xs : list Input) (i : Input) :
  run n (xs ++ [i]) = ((step (run n xs).1 i).1, (run n xs).2 ++ (step (run n xs).1 i).2).
Proof.
  rewrite run_app. cbn. destruct (step (run n xs).1 i) as [n1 e1]; cbn.
  by rewrite app_nil_r.
Qed.

(** *** Fields no callback writes *)

Lemma same_setup_refl (n : Node) : same_setup n n.
Proof. by repeat split. Qed.

Lemma same_setup_trans (a b c : Node) : same_setup a b -> same_setup b c -> same_setup a c.
Proof.
  unfold same_setup. intros H1 H2.
  repeat match goal with H : _ /\ _ |- _ => destruct H as [? H] end.
  repeat split; congruence.
Qed.

Lemma step_same_setup (n : Node) (i : Input) : same_setup n (step n i).1.
Proof.
  destruct i as [msg| |]; cbn.
  - by repeat split.
  - destruct (performRegistration_outcome n); by repeat split.
  - rewrite publishTransform_node. apply same_setup_refl.
Qed.

Lemma run_same_setup (n : Node) (inputs : list Input) : same_setup n (run n inputs).1.
Proof.
  revert n. induction inputs as [|i rest IH]; intros n.
  - apply same_setup_refl.
  - rewrite run_cons. cbn. eapply same_setup_trans; [apply step_same_setup | apply IH].
Qed.

End Callbacks.

(** ** What the constructor builds *)

Section Construction.
Context `{W : World}.


Lemma declare_integer (overrides : Overrides) (name : string) (d : Z) :
  well_typed overrides name TInteger = true ->
  declare_parameter overrides name (PInteger d)
  = Ok (PInteger (declared_integer overrides name d)).
Proof.
  unfold well_typed, declare_parameter, declared_integer.
  destruct (overrides !! name) as [[]|]; cbn; congruence.
Qed.

Lemma static_cast_declared_integer (overrides : Overrides) (name : string) (d : Z) :
  static_cast_int (declared_integer overrides name d) = configured_integer overrides name d.
Proof.
  unfold declared_integer, configured_integer.
  by destruct (overrides !! name) as [[]|].
Qed.

Example static_cast_int_wraps :
  static_cast_int 4294967297 = 1%Z /\ static_cast_int (-2147483649) = 2147483647%Z /\
  static_cast_int (-3) = (-3)%Z.
Proof. by vm_compute. Qed.


Lemma static_cast_int_range (i : Z) : (- 2 ^ 31 <= static_cast_int i < 2 ^ 31)%Z.
Proof.
  unfold static_cast_int.
  pose proof (Z.mod_pos_bound (i + 2 ^ 31) (2 ^ 32) ltac:(lia)). lia.
Qed.

Lemma declare_double (overrides : Overrides) (name : string) (d : double) :
  well_typed overrides name TDouble = true ->
  declare_parameter overrides name (PDouble d)
  = Ok (PDouble (configured_double overrides name d)).
Proof.
  unfold well_typed, declare_parameter, configured_double.
  destruct (overrides !! name) as [[]|]; cbn; congruence.
Qed.

Lemma declare_string (overrides : Overrides) (name : string) (d : string) :
  well_typed overrides name TString = true ->
  declare_parameter overrides name (PString d)
  = Ok (PString (configured_string overrides name d)).
Proof.
  unfold well_typed, declare_parameter, configured_string.
  destruct (overrides !! name) as [[]|]; cbn; congruence.
Qed.

Lemma declare_ill_typed (overrides : Overrides) (name : string) (d : ParameterValue) :
  well_typed overrides name (type_of d) = false ->
  declare_parameter overrides name d = Throw (InvalidParameterTypeException name).
Proof.
  unfold well_typed, declare_parameter.
  destruct (overrides !! name) as [v|]; [|done]. by intros ->.
Qed.

Lemma constructor_well_typed (overrides : Overrides) :
  all_well_typed overrides = true ->
  SmallGicpRelocalizationNode overrides = Ok (constructed overrides).
Proof.
  unfold all_well_typed. intros H.
  repeat (apply andb_prop in H; destruct H as [H ?]).
  unfold SmallGicpRelocalizationNode.
  rewrite !declare_integer, !declare_double, !declare_string by assumption.
  cbn [bind get_integer get_double get_string].
  rewrite !static_cast_declared_integer.
  unfold constructed.
  by destruct (loadGlobalMap _ _).
Qed.

Lemma constructor_ill_typed (overrides : Overrides) :
  all_well_typed overrides = false ->
  exists name, SmallGicpRelocalizationNode overrides = Throw (InvalidParameterTypeException name).
Proof.
  unfold all_well_typed, SmallGicpRelocalizationNode. intros H.
  destruct (well_typed overrides "num_threads" TInteger) eqn:E1;
    [rewrite declare_integer by done | eexists; by rewrite declare_ill_typed].
  destruct (well_typed overrides "num_neighbors" TInteger) eqn:E2;
    [rewrite declare_integer by done | eexists; by rewrite declare_ill_typed].
  destruct (well_typed overrides "global_leaf_size" TDouble) eqn:E3;
    [rewrite declare_double by done | eexists; by rewrite declare_ill_typed].
  destruct (well_typed overrides "registered_leaf_size" TDouble) eqn:E4;
    [rewrite declare_double by done | eexists; by rewrite declare_ill_typed].
  destruct (well_typed overrides "max_dist_sq" TDouble) eqn:E5;
    [rewrite declare_double by done | eexists; by rewrite declare_ill_typed].
  destruct (well_typed overrides "map_frame_id" TString) eqn:E6;
    [rewrite declare_string by done | eexists; by rewrite declare_ill_typed].
  destruct (well_typed overrides "odom_frame_id" TString) eqn:E7;
    [rewrite declare_string by done | eexists; by rewrite declare_ill_typed].
  destruct (well_typed overrides "prior_pcd_file" TString) eqn:E8;
    [discriminate | eexists; by rewrite declare_ill_typed].
Qed.

(** A construction that returns returned [constructed]. *)
Lemma constructor_Ok (overrides : Overrides) (n : Node) (events : list Event) :
  SmallGicpRelocalizationNode overrides = Ok (n, events) ->
  all_well_typed overrides = true /\ (n, events) = constructed overrides.
Proof.
  intros H. destruct (all_well_typed overrides) eqn:E.
  - rewrite constructor_well_typed in H by done. split; congruence.
  - destruct (constructor_ill_typed overrides E) as [name Hn]. congruence.
Qed.

End Construction.

(** ** What a run leaves in the node *)

Section Invariants.
Context `{W : World}.

Lemma latest_converged_app (a b : list Event) :
  latest_converged (a ++ b) =
  match latest_converged b with
  | Some r => Some r
  | None => latest_converged a
  end.
Proof.
  induction a as [|e a IH]; cbn.
  - by destruct (latest_converged b).
  - rewrite IH. by destruct (latest_converged b).
Qed.

Lemma latest_converged_None (trace : list Event) :
  latest_converged trace = None <-> existsb is_converged_align trace = false.
Proof.
  induction trace as [|e rest IH]; cbn; [done|].
  rewrite orb_false_iff, <- IH.
  destruct (latest_converged rest) as [r|].
  - split; [done | by intros [_ ?]].
  - destruct e as [| | | |reg t s tr init res|]; cbn; try done.
    destruct (converged res); split; try done. by intros [? _].
Qed.

Lemma latest_converged_Some (trace : list Event) (r : RegistrationResult) :
  latest_converged trace = Some r ->
  converged r = true /\
  exists reg target source tree init, In (CallAlign reg target source tree init r) trace.
Proof.
  induction trace as [|e rest IH]; cbn; [done|].
  destruct (latest_converged rest) as [r'|].
  - intros [= ->]. destruct (IH eq_refl) as (Hc & reg & t & s & tr & init & Hin).
    split; [done|]. exists reg, t, s, tr, init. by right.
  - destruct e as [| | | |reg t s tr init res|]; try done.
    destruct (converged res) eqn:Hc; [|done].
    intros [= ->]. split; [done|]. exists reg, t, s, tr, init. by left.
Qed.

(** *** Matrices of rigid transforms *)

Lemma cast_matrix_row3 (T : Isometry3d) : row3 (cast_float (matrix T)) = affine_row.
Proof. reflexivity. Qed.

Lemma affine_row_not_zero (M : Matrix4f) : row3 M = affine_row -> isZero M = false.
Proof.
  intros Hrow. destruct (isZero M) eqn:Hz; [|done].
  unfold isZero in Hz. rewrite forallb_forall in Hz.
  specialize (Hz (coeff M 3 3)).
  rewrite <- Hz.
  - unfold coeff. cbn [row]. by rewrite Hrow.
  - unfold coeffs_colmajor. cbn. tauto.
Qed.

Lemma isZero_cast_matrix (T : Isometry3d) : isZero (cast_float (matrix T)) = false.
Proof. apply affine_row_not_zero, cast_matrix_row3. Qed.

(** *** The stored result *)

Lemma step_result_T (n : Node) (i : Input) :
  result_T_ (step n i).1 = stored_result (result_T_ n) (step n i).2.
Proof.
  unfold stored_result. destruct i as [msg| |]; cbn [step].
  - done.
  - destruct (performRegistration_outcome n) as [Hs|s t Hs Ht Hc|s t Hs Ht Hc];
      cbn; [done| |];
      change (converged (align (registration_settings n) (target_ n) s (target_tree_ n)
                           Isometry3d_Identity))
        with (converged (registration_result n s)); by rewrite Hc.
  - unfold publishTransform. by destruct (isZero (result_T_ n)).
Qed.

Lemma run_result_T (n : Node) (inputs : list Input) :
  result_T_ (run n inputs).1 = stored_result (result_T_ n) (run n inputs).2.
Proof.
  revert n. induction inputs as [|i rest IH]; intros n; [done|].
  rewrite run_cons. cbn [fst snd]. rewrite IH, step_result_T.
  unfold stored_result. rewrite latest_converged_app.
  by destruct (latest_converged (run (step n i).1 rest).2).
Qed.

(** *** The scan time and the source *)

Lemma step_last_scan_time (n : Node) (i : Input) :
  last_scan_time_ (step n i).1 =
  match i with
  | RegisteredScan msg => header_stamp msg
  | _ => last_scan_time_ n
  end.
Proof.
  destruct i as [msg| |]; cbn [step].
  - done.
  - by destruct (performRegistration_outcome n).
  - by rewrite publishTransform_node.
Qed.


Lemma step_snapshot (n : Node) (i : Input) :
  match i with
  | RegisteredScan msg => snapshot_of (step n i).1 msg
  | _ => source_ (step n i).1 = source_ n /\ source_tree_ (step n i).1 = source_tree_ n
  end.
Proof.
  destruct i as [msg| |]; cbn [step].
  - by repeat split.
  - by destruct (performRegistration_outcome n).
  - by rewrite publishTransform_node.
Qed.

Lemma snapshot_of_same_setup (n n' : Node) (msg : PointCloud2) :
  same_setup n n' ->
  source_ n' = source_ n -> source_tree_ n' = source_tree_ n ->
  last_scan_time_ n' = last_scan_time_ n ->
  snapshot_of n msg -> snapshot_of n' msg.
Proof.
  unfold snapshot_of, preprocessed, same_setup.
  intros Hs -> -> ->. 
  destruct Hs as (-> & -> & _ & -> & _). tauto.
Qed.

Lemma run_snapshot (n : Node) (inputs : list Input) :
  match last_scan inputs with
  | Some msg => snapshot_of (run n inputs).1 msg
  | None => source_ (run n inputs).1 = source_ n /\
            source_tree_ (run n inputs).1 = source_tree_ n
  end.
Proof.
  induction inputs as [|i rest IH] using rev_ind; [done|].
  rewrite run_snoc. cbn [fst].
  assert (Hl : last_scan (rest ++ [i]) =
               match i with RegisteredScan msg => Some msg | _ => last_scan rest end).
  { clear. induction rest as [|j rest IH]; cbn.
    - by destruct i.
    - rewrite IH. by destruct i. }
  rewrite Hl.
  pose proof (step_snapshot (run n rest).1 i) as Hstep.
  pose proof (step_last_scan_time (run n rest).1 i) as Htime.
  pose proof (step_same_setup (run n rest).1 i) as Hsetup.
  destruct i as [msg| |]; [done| |];
    destruct Hstep as [Hs Ht]; (destruct (last_scan rest) as [m|];
      [by eapply snapshot_of_same_setup | rewrite Hs, Ht; exact IH]).
Qed.

End Invariants.

(** ** Events of a run *)

Section Traces.
Context `{W : World}.

(** Every event of a run is the event of one callback, run on the node the
    inputs before it left. *)
Lemma run_events (n : Node) (inputs : list Input) (e : Event) :
  In e (run n inputs).2 ->
  exists before i after,
    inputs = before ++ i :: after /\ In e (step (run n before).1 i).2.
Proof.
  induction inputs as [|i rest IH] using rev_ind; [done|].
  rewrite run_snoc. cbn [snd]. rewrite in_app_iff. intros [Hin|Hin].
  - destruct (IH Hin) as (before & j & after & -> & Hj).
    exists before, j, (after ++ [i]). split; [|done].
    by rewrite <- app_assoc.
  - exists rest, i, []. by split.
Qed.

(** The events of one alignment cycle. *)
Lemma performRegistration_call (n : Node) (e : Event) :
  In e (performRegistration n).2 ->
  is_align e = true ->
  exists source tree,
    source_ n = Some source /\ source_tree_ n = Some tree /\ e = registration_call n source.
Proof.
  destruct (performRegistration_outcome n) as [Hs|s t Hs Ht Hc|s t Hs Ht Hc]; cbn.
  - done.
  - intros [<-|[<-|[]]]; [|done]. intros _. by exists s, t.
  - intros [<-|[]] _. by exists s, t.
Qed.

Lemma step_call (n : Node) (i : Input) (e : Event) :
  In e (step n i).2 ->
  is_align e = true ->
  i = RegisterTimer /\
  exists source tree,
    source_ n = Some source /\ source_tree_ n = Some tree /\ e = registration_call n source.
Proof.
  destruct i as [msg| |]; cbn [step].
  - done.
  - intros Hin He. split; [done|]. by apply performRegistration_call.
  - unfold publishTransform. destruct (isZero (result_T_ n)); cbn; [done|].
    by intros [<-|[]].
Qed.

(** Only [publishTransform] sends, and only a non-zero [result_T_]. *)
Lemma step_send (n : Node) (i : Input) (e : Event) :
  In e (step n i).2 ->
  is_send e = true ->
  i = TransformTimer /\ isZero (result_T_ n) = false /\ e = SendTransform (transform_of n).
Proof.
  destruct i as [msg| |]; cbn [step].
  - done.
  - destruct (performRegistration_outcome n); cbn; [done| |].
    + by intros [<-|[<-|[]]].
    + by intros [<-|[]].
  - destruct (isZero (result_T_ n)) eqn:Hz.
    + by rewrite publishTransform_absent.
    + rewrite publishTransform_present by done. by intros [<-|[]].
Qed.

(** No callback loads a file or logs an error. *)
Lemma step_no_load_no_error (n : Node) (i : Input) :
  existsb is_load (step n i).2 = false /\ existsb is_error (step n i).2 = false.
Proof.
  destruct i as [msg| |]; cbn [step].
  - done.
  - by destruct (performRegistration_outcome n).
  - unfold publishTransform. by destruct (isZero (result_T_ n)).
Qed.

Lemma run_no_load_no_error (n : Node) (inputs : list Input) :
  existsb is_load (run n inputs).2 = false /\ existsb is_error (run n inputs).2 = false.
Proof.
  revert n. induction inputs as [|i rest IH]; intros n; [done|].
  rewrite run_cons. cbn [snd]. rewrite !existsb_app.
  destruct (step_no_load_no_error n i) as [-> ->].
  by destruct (IH (step n i).1) as [-> ->].
Qed.

(** Without a source, a run that ingests no scan aligns nothing. *)
Lemma run_without_scan (n : Node) (inputs : list Input) :
  source_ n = None ->
  last_scan inputs = None ->
  existsb is_align (run n inputs).2 = false.
Proof.
  intros Hs Hl.
  destruct (existsb is_align (run n inputs).2) eqn:E; [|done].
  apply existsb_exists in E as (e & Hin & He).
  apply run_events in Hin as (before & i & after & -> & Hin).
  apply step_call in Hin as (_ & s & t & Hsrc & _); [|done].
  assert (Hb : last_scan before = None).
  { clear -Hl. induction before as [|j before IH]; [done|].
    cbn in Hl |- *. destruct (last_scan (before ++ i :: after)); [done|].
    by rewrite IH. }
  pose proof (run_snapshot n before) as Hsnap. rewrite Hb in Hsnap.
  destruct Hsnap as [Hsnap _]. congruence.
Qed.

End Traces.

(** ** The claims, settled on the node *)

Section Claims.
Context `{W : World}.


(** C6. An alignment cycle on a node without a source, or without a source
    tree, returns at once: the node is unchanged and nothing is logged,
    aligned or sent. That is the state of every cycle that fires before a
    scan has been ingested: after construction and any inputs without a scan,
    both pointers are still null, no alignment has been called and
    [result_T_] is still the initial matrix. *)
Theorem C6_cycle_without_source_is_skipped (overrides : Overrides) (n0 : Node)
    (events0 : list Event) (inputs : list Input) :
  SmallGicpRelocalizationNode overrides = Ok (n0, events0) ->
  last_scan inputs = None ->
  source_ (run n0 inputs).1 = None /\
  source_tree_ (run n0 inputs).1 = None /\
  performRegistration (run n0 inputs).1 = ((run n0 inputs).1, []) /\
  existsb is_align (run n0 inputs).2 = false /\
  result_T_ (run n0 inputs).1 = initial_result_T /\
  (forall m : Node,
     source_ m = None \/ source_tree_ m = None -> performRegistration m = (m, [])).
Proof.
  intros Hctor Hl.
  apply constructor_Ok in Hctor as [_ Hn0].
  assert (Hsrc : source_ n0 = None /\ source_tree_ n0 = None /\ result_T_ n0 = initial_result_T).
  { unfold constructed in Hn0. by injection Hn0 as -> _. }
  destruct Hsrc as (Hs0 & Ht0 & HT0).
  pose proof (run_snapshot n0 inputs) as Hsnap. rewrite Hl in Hsnap.
  destruct Hsnap as [Hs Ht]. rewrite Hs0 in Hs. rewrite Ht0 in Ht.
  assert (Hskip : forall m : Node,
             source_ m = None \/ source_tree_ m = None -> performRegistration m = (m, [])).
  { intros m Hm. rewrite performRegistration_eq.
    destruct Hm as [-> | Hm]; [done|]. rewrite Hm. by destruct (source_ m). }
  pose proof (run_without_scan n0 inputs Hs0 Hl) as Hno.
  repeat split; try done.
  - apply Hskip. by left.
  - rewrite run_result_T. unfold stored_result.
    destruct (latest_converged (run n0 inputs).2) as [r|] eqn:E; [|done].
    apply latest_converged_Some in E as (_ & reg & t & s & tr & init & Hin).
    assert (existsb is_align (run n0 inputs).2 = true); [|congruence].
    apply existsb_exists. by eexists.
Qed.

(** C7. Every alignment a run calls is seeded with the identity: the initial
    guess of each logged call is [Isometry3d::Identity()], and the result is
    the solver's answer for that guess, whatever [result_T_] held before. A
    cycle with a source makes exactly such a call. *)
Theorem C7_alignment_seeded_with_identity (n : Node) (inputs : list Input)
    (reg : Registration) (target source : PointCloudCov) (tree : KdTree)
    (init : Isometry3d) (result : RegistrationResult) :
  In (CallAlign reg target source tree init result) (run n inputs).2 ->
  init = Isometry3d_Identity /\
  result = align reg target source tree Isometry3d_Identity /\
  (forall (m : Node) (s : PointCloudCov) (t : KdTree),
     source_ m = Some s -> source_tree_ m = Some t ->
     In (CallAlign (registration_settings m) (target_ m) s (target_tree_ m)
           Isometry3d_Identity
           (align (registration_settings m) (target_ m) s (target_tree_ m)
              Isometry3d_Identity))
        (performRegistration m).2).
Proof.
  intros Hin.
  apply run_events in Hin as (before & i & after & _ & Hin).
  apply step_call in Hin as (_ & s & t & _ & _ & Heq); [|done].
  injection Heq as -> -> -> -> -> ->.
  repeat split.
  intros m s' t' Hs Ht. rewrite performRegistration_eq, Hs, Ht.
  fold (registration_result m s'). fold (registration_call m s').
  destruct (converged (registration_result m s')); by left.
Qed.

(** C2. From construction on, as long as no alignment of the run has
    converged, [result_T_] is the initial zero matrix, [publishTransform]
    emits nothing and nothing has been sent. Once an alignment has converged,
    [result_T_] is not zero for [isZero], differs from the initial matrix,
    and [publishTransform] sends. In particular when the latest converged
    result is the identity, the stored matrix is the identity matrix, which
    is not the initial matrix, and the transform sent has a zero translation
    and the unit rotation. *)
Theorem C2_absent_until_converged (overrides : Overrides) (n0 : Node)
    (events0 : list Event) (inputs : list Input) :
  SmallGicpRelocalizationNode overrides = Ok (n0, events0) ->
  (existsb is_converged_align (run n0 inputs).2 = false ->
     result_T_ (run n0 inputs).1 = initial_result_T /\
     publishTransform (run n0 inputs).1 = ((run n0 inputs).1, []) /\
     existsb is_send (run n0 inputs).2 = false) /\
  (existsb is_converged_align (run n0 inputs).2 = true ->
     isZero (result_T_ (run n0 inputs).1) = false /\
     result_T_ (run n0 inputs).1 <> initial_result_T /\
     publishTransform (run n0 inputs).1
     = ((run n0 inputs).1, [SendTransform (transform_of (run n0 inputs).1)])) /\
  (forall r : RegistrationResult,
     latest_converged (run n0 inputs).2 = Some r ->
     T_target_source r = Isometry3d_Identity ->
     result_T_ (run n0 inputs).1 = Matrix4f_Identity /\
     Matrix4f_Identity <> initial_result_T /\
     publishTransform (run n0 inputs).1
     = ((run n0 inputs).1,
        [SendTransform
           (MkTransformStamped (last_scan_time_ (run n0 inputs).1)
              (map_frame_id_ n0) (odom_frame_id_ n0)
              F64.zero F64.zero F64.zero F64.zero F64.zero F64.zero F64.one)])).
Proof.
  intros Hctor.
  apply constructor_Ok in Hctor as [_ Hn0].
  assert (HT0 : result_T_ n0 = initial_result_T).
  { unfold constructed in Hn0. by injection Hn0 as -> _. }
  assert (Hres : forall xs, result_T_ (run n0 xs).1 = stored_result initial_result_T (run n0 xs).2).
  { intros xs. by rewrite run_result_T, HT0. }
  split; [|split].
  - intros Hnone.
    assert (Hzero : forall xs, existsb is_converged_align (run n0 xs).2 = false ->
                               result_T_ (run n0 xs).1 = initial_result_T).
    { intros xs Hx. rewrite Hres. unfold stored_result.
      apply latest_converged_None in Hx. by rewrite Hx. }
    split; [by apply Hzero|]. split.
    + apply publishTransform_absent. by rewrite Hzero.
    + destruct (existsb is_send (run n0 inputs).2) eqn:E; [|done].
      apply existsb_exists in E as (e & Hin & He).
      apply run_events in Hin as (before & i & after & Heq & Hin).
      apply step_send in Hin as (_ & Hz & _); [|done].
      rewrite Hzero in Hz; [done|].
      rewrite Heq, run_app in Hnone. cbn [snd] in Hnone.
      rewrite existsb_app in Hnone. by apply orb_false_iff in Hnone as [? _].
  - intros Hsome.
    destruct (latest_converged (run n0 inputs).2) as [r|] eqn:E.
    2:{ apply latest_converged_None in E. congruence. }
    assert (Hz : isZero (result_T_ (run n0 inputs).1) = false).
    { rewrite Hres. unfold stored_result. rewrite E. apply isZero_cast_matrix. }
    split; [done|]. split.
    + intros Heq. rewrite Heq in Hz. done.
    + by apply publishTransform_present.
  - intros r Hr HI.
    assert (HT : result_T_ (run n0 inputs).1 = Matrix4f_Identity).
    { rewrite Hres. unfold stored_result. by rewrite Hr, HI. }
    split; [done|]. split; [done|].
    rewrite publishTransform_present by (by rewrite HT).
    destruct (run_same_setup n0 inputs) as (_ & _ & _ & _ & _ & Hm & Ho & _).
    unfold transform_of. by rewrite HT, Hm, Ho.
Qed.

(** C10. The initial [result_T_] is the all-zero matrix, on which [isZero]
    holds. The matrix stored for a converged result is the single-precision
    matrix of an isometry: its last row is (0, 0, 0, 1), so [isZero] fails on
    it. Hence once an alignment of a run has converged, after any further
    inputs the last row of [result_T_] is (0, 0, 0, 1), [isZero] fails and
    [publishTransform] sends one transform. *)
Theorem C10_stored_result_is_never_zero (overrides : Overrides) (n0 : Node)
    (events0 : list Event) (before after : list Input) :
  SmallGicpRelocalizationNode overrides = Ok (n0, events0) ->
  existsb is_converged_align (run n0 before).2 = true ->
  result_T_ n0 = Matrix4f_Zero /\
  isZero Matrix4f_Zero = true /\
  (forall T : Isometry3d,
     row3 (cast_float (matrix T)) = affine_row /\ isZero (cast_float (matrix T)) = false) /\
  row3 (result_T_ (run n0 (before ++ after)).1) = affine_row /\
  isZero (result_T_ (run n0 (before ++ after)).1) = false /\
  publishTransform (run n0 (before ++ after)).1
  = ((run n0 (before ++ after)).1,
     [SendTransform (transform_of (run n0 (before ++ after)).1)]).
Proof.
  intros Hctor Hconv.
  apply constructor_Ok in Hctor as [_ Hn0].
  assert (HT0 : result_T_ n0 = Matrix4f_Zero).
  { unfold constructed in Hn0. by injection Hn0 as -> _. }
  assert (Hrow : row3 (result_T_ (run n0 (before ++ after)).1) = affine_row).
  { rewrite run_result_T. unfold stored_result.
    destruct (latest_converged (run n0 (before ++ after)).2) as [r|] eqn:E; [done|].
    apply latest_converged_None in E.
    rewrite run_app in E. cbn [snd] in E. rewrite existsb_app, Hconv in E. done. }
  pose proof (affine_row_not_zero _ Hrow) as Hz.
  repeat split; try done.
  - apply isZero_cast_matrix.
  - by apply publishTransform_present.
Qed.

(** C9. A construction with well-typed overrides returns a node, and each
    parameter for which no value is supplied has its default there:
    [num_threads] 4, [num_neighbors] 20, [global_leaf_size] 0.25,
    [registered_leaf_size] 0.25, [max_dist_sq] 1.0, [map_frame_id] "map",
    [odom_frame_id] "odom" and [prior_pcd_file] the empty string. *)
Theorem C9_parameter_defaults (overrides : Overrides) :
  all_well_typed overrides = true ->
  exists (n0 : Node) (events0 : list Event),
    SmallGicpRelocalizationNode overrides = Ok (n0, events0) /\
    (overrides !! "num_threads" = None -> num_threads_ n0 = 4%Z) /\
    (overrides !! "num_neighbors" = None -> num_neighbors_ n0 = 20%Z) /\
    (overrides !! "global_leaf_size" = None -> global_leaf_size_ n0 = F64.quarter) /\
    (overrides !! "registered_leaf_size" = None -> registered_leaf_size_ n0 = F64.quarter) /\
    (overrides !! "max_dist_sq" = None -> max_dist_sq_ n0 = F64.one) /\
    (overrides !! "map_frame_id" = None -> map_frame_id_ n0 = "map") /\
    (overrides !! "odom_frame_id" = None -> odom_frame_id_ n0 = "odom") /\
    (overrides !! "prior_pcd_file" = None -> prior_pcd_file_ n0 = "").
Proof.
  intros Hwt. exists (constructed overrides).1, (constructed overrides).2.
  split.
  - rewrite constructor_well_typed by done. by destruct (constructed overrides).
  - unfold constructed, configured_integer, configured_double, configured_string. cbn.
    repeat split; by intros ->.
Qed.

(** C3 (amended). When [loadPCDFile] fails on the configured file, the
    constructor logs the error once and goes on with the empty map: the
    target is the preprocessed empty cloud. No later callback loads a file or
    logs an error, and the map and the target stay as built. The pipeline
    still runs: once a scan has been ingested, an alignment cycle calls the
    solver on that scan against the target of the empty map, and
    [publishTransform] emits exactly when an alignment of the run has
    converged. *)
Theorem C3_failed_load_leaves_empty_target (overrides : Overrides) (n0 : Node)
    (events0 : list Event) (inputs : list Input) :
  SmallGicpRelocalizationNode overrides = Ok (n0, events0) ->
  loadPCDFile (prior_pcd_file_ n0) = None ->
  events0 = [CallLoadPCDFile (prior_pcd_file_ n0);
             RCLCPP_ERROR "Couldn't read PCD file: %s" [ArgString (prior_pcd_file_ n0)]] /\
  global_map_ n0 = [] /\
  target_ n0 = estimate_covariances_omp (voxelgrid_sampling_omp [] (global_leaf_size_ n0))
                 (num_neighbors_ n0) (num_threads_ n0) /\
  existsb is_load (run n0 inputs).2 = false /\
  existsb is_error (run n0 inputs).2 = false /\
  global_map_ (run n0 inputs).1 = [] /\
  target_ (run n0 inputs).1 = target_ n0 /\
  (forall scan : PointCloud2,
     last_scan inputs = Some scan ->
     In (CallAlign (registration_settings n0) (target_ n0) (preprocessed n0 scan)
           (target_tree_ n0) Isometry3d_Identity
           (align (registration_settings n0) (target_ n0) (preprocessed n0 scan)
              (target_tree_ n0) Isometry3d_Identity))
        (performRegistration (run n0 inputs).1).2) /\
  ((publishTransform (run n0 inputs).1).2 = [] <->
   existsb is_converged_align (run n0 inputs).2 = false).
Proof.
  intros Hctor Hload.
  apply constructor_Ok in Hctor as [_ Hn0].
  assert (Hbuilt :
    (global_map_ n0, events0) = loadGlobalMap (prior_pcd_file_ n0) [] /\
    target_ n0 = estimate_covariances_omp
                   (voxelgrid_sampling_omp (global_map_ n0) (global_leaf_size_ n0))
                   (num_neighbors_ n0) (num_threads_ n0) /\
    result_T_ n0 = initial_result_T).
  { unfold constructed in Hn0. injection Hn0 as -> ->. cbn.
    by destruct (loadGlobalMap _ _). }
  destruct Hbuilt as (Hmap & Htarget & HT0).
  unfold loadGlobalMap in Hmap. rewrite Hload in Hmap. injection Hmap as Hmap ->.
  rewrite Hmap in Htarget.
  pose proof (run_same_setup n0 inputs) as Hsetup.
  destruct Hsetup as (Hth & Hk & _ & Hleaf & Hd & _ & _ & _ & Hgm & Htg & Htt).
  destruct (run_no_load_no_error n0 inputs) as [Hnl Hne].
  repeat split; try done.
  - by rewrite Hgm.
  - intros scan Hscan.
    pose proof (run_snapshot n0 inputs) as Hsnap. rewrite Hscan in Hsnap.
    destruct Hsnap as (Hs & Ht & _).
    rewrite performRegistration_eq, Hs, Ht.
    unfold registration_call, registration_result, registration_settings, preprocessed.
    rewrite Hth, Hk, Hleaf, Hd, Htg, Htt.
    destruct (converged _); by left.
  - intros Hpub. rewrite <- latest_converged_None.
    destruct (latest_converged (run n0 inputs).2) as [r|] eqn:E; [|done].
    rewrite publishTransform_present in Hpub; [done|].
    rewrite run_result_T. unfold stored_result. rewrite E. apply isZero_cast_matrix.
  - intros Hnone. rewrite publishTransform_absent; [done|].
    rewrite run_result_T, HT0. unfold stored_result.
    apply latest_converged_None in Hnone. by rewrite Hnone.
Qed.



End Claims.

(** ** The claims on concrete runs *)

Section Concrete_runs.
#[local] Existing Instance Example_world.world.


(** Timer ticks before any scan: the cycle is skipped. *)
Lemma C6_skipped_cycle_witness :
  let c := constructed Example_world.with_map in
  let inputs := [RegisterTimer; TransformTimer; RegisterTimer] in
  SmallGicpRelocalizationNode Example_world.with_map = Ok (c.1, c.2) /\
  last_scan inputs = None /\
  performRegistration (run c.1 inputs).1 = ((run c.1 inputs).1, []) /\
  (run c.1 inputs).2 = [].
Proof.
  intros c inputs.
  assert (H1 : SmallGicpRelocalizationNode Example_world.with_map = Ok (c.1, c.2))
    by (vm_compute; reflexivity).
  assert (H2 : last_scan inputs = None) by reflexivity.
  assert (H3 : (run c.1 inputs).2 = []) by (vm_compute; reflexivity).
  pose proof (C6_cycle_without_source_is_skipped _ _ _ _ H1 H2) as H.
  exact (conj H1 (conj H2 (conj (proj1 (proj2 (proj2 H))) H3))).
Defined.

(** A second alignment, after a first one stored a transform that is not the
    identity: it is seeded with the identity all the same. *)
Lemma C7_identity_seed_witness :
  let n := (run (Example_world.node_of Example_world.with_map)
              [RegisteredScan (Example_world.near_scan 1); RegisterTimer]).1 in
  let inputs := [RegisteredScan (Example_world.near_scan 2); RegisterTimer] in
  let source := preprocessed n (Example_world.near_scan 2) in
  let result := registration_result n source in
  result_T_ n <> Matrix4f_Identity /\
  In (CallAlign (registration_settings n) (target_ n) source (target_tree_ n)
        Isometry3d_Identity result) (run n inputs).2 /\
  result = align (registration_settings n) (target_ n) source (target_tree_ n)
             Isometry3d_Identity.
Proof.
  intros n inputs source result.
  assert (H0 : result_T_ n <> Matrix4f_Identity)
    by (intros H; vm_compute in H; discriminate H).
  assert (H1 : In (CallAlign (registration_settings n) (target_ n) source (target_tree_ n)
                     Isometry3d_Identity result) (run n inputs).2)
    by (vm_compute; left; reflexivity).
  pose proof (C7_alignment_seeded_with_identity n _ _ _ _ _ _ _ H1) as H.
  exact (conj H0 (conj H1 (proj1 (proj2 H)))).
Defined.

(** With no map the first alignment converges to the identity: the identity
    matrix is stored and sent. *)
Lemma C2_identity_is_published_witness :
  let c := constructed (∅ : Overrides) in
  let inputs := [RegisteredScan (Example_world.near_scan 1); RegisterTimer] in
  SmallGicpRelocalizationNode ∅ = Ok (c.1, c.2) /\
  existsb is_converged_align (run c.1 inputs).2 = true /\
  isZero (result_T_ (run c.1 inputs).1) = false /\
  result_T_ (run c.1 inputs).1 = Matrix4f_Identity /\
  publishTransform (run c.1 inputs).1
  = ((run c.1 inputs).1,
     [SendTransform
        (MkTransformStamped (last_scan_time_ (run c.1 inputs).1)
           (map_frame_id_ c.1) (odom_frame_id_ c.1)
           F64.zero F64.zero F64.zero F64.zero F64.zero F64.zero F64.one)]).
Proof.
  intros c inputs.
  assert (H1 : SmallGicpRelocalizationNode ∅ = Ok (c.1, c.2))
    by (vm_compute; reflexivity).
  assert (H2 : existsb is_converged_align (run c.1 inputs).2 = true)
    by (vm_compute; reflexivity).
  assert (H3 : exists r, latest_converged (run c.1 inputs).2 = Some r /\
                         T_target_source r = Isometry3d_Identity)
    by (eexists; split; vm_compute; reflexivity).
  pose proof (C2_absent_until_converged _ _ _ inputs H1) as H.
  destruct H3 as (r & Hr & HI).
  exact (conj H1 (conj H2 (conj (proj1 (proj1 (proj2 H) H2))
           (conj (proj1 (proj2 (proj2 H) r Hr HI))
                 (proj2 (proj2 (proj2 (proj2 H) r Hr HI))))))).
Defined.

(** After a converged alignment, a rejected one and a tick: still sent. *)
Lemma C10_sent_after_convergence_witness :
  let c := constructed Example_world.with_map in
  let before := [RegisteredScan (Example_world.near_scan 1); RegisterTimer] in
  let after := [RegisteredScan (Example_world.far_scan 2); RegisterTimer; TransformTimer] in
  SmallGicpRelocalizationNode Example_world.with_map = Ok (c.1, c.2) /\
  existsb is_converged_align (run c.1 before).2 = true /\
  row3 (result_T_ (run c.1 (before ++ after)).1) = affine_row /\
  isZero (result_T_ (run c.1 (before ++ after)).1) = false /\
  publishTransform (run c.1 (before ++ after)).1
  = ((run c.1 (before ++ after)).1,
     [SendTransform (transform_of (run c.1 (before ++ after)).1)]).
Proof.
  intros c before after.
  assert (H1 : SmallGicpRelocalizationNode Example_world.with_map = Ok (c.1, c.2))
    by (vm_compute; reflexivity).
  assert (H2 : existsb is_converged_align (run c.1 before).2 = true)
    by (vm_compute; reflexivity).
  pose proof (C10_stored_result_is_never_zero _ _ _ _ after H1 H2) as H.
  exact (conj H1 (conj H2 (proj2 (proj2 (proj2 H))))).
Defined.

(** No override at all: every parameter has its default. *)
Lemma C9_defaults_witness :
  all_well_typed (∅ : Overrides) = true /\
  exists (n0 : Node) (events0 : list Event),
    SmallGicpRelocalizationNode ∅ = Ok (n0, events0) /\
    num_threads_ n0 = 4%Z /\ num_neighbors_ n0 = 20%Z /\
    global_leaf_size_ n0 = F64.quarter /\ registered_leaf_size_ n0 = F64.quarter /\
    max_dist_sq_ n0 = F64.one /\
    map_frame_id_ n0 = "map" /\ odom_frame_id_ n0 = "odom" /\ prior_pcd_file_ n0 = "".
Proof.
  assert (Hwt : all_well_typed (∅ : Overrides) = true) by reflexivity.
  split; [exact Hwt|].
  destruct (C9_parameter_defaults ∅ Hwt)
    as (n0 & events0 & H & H1 & H2 & H3 & H4 & H5 & H6 & H7 & H8).
  exists n0, events0.
  exact (conj H (conj (H1 eq_refl) (conj (H2 eq_refl) (conj (H3 eq_refl)
          (conj (H4 eq_refl) (conj (H5 eq_refl) (conj (H6 eq_refl)
          (conj (H7 eq_refl) (H8 eq_refl))))))))).
Defined.

(** The default configuration names no map file: the load fails, and yet
    the first cycle after a scan aligns, converges on the empty target and
    the next tick sends a transform. *)
Lemma C3_alignment_without_map_counterexample :
  let c := constructed (∅ : Overrides) in
  let inputs := [RegisteredScan (Example_world.near_scan 1); RegisterTimer; TransformTimer] in
  SmallGicpRelocalizationNode ∅ = Ok (c.1, c.2) /\
  loadPCDFile (prior_pcd_file_ c.1) = None /\
  existsb is_error c.2 = true /\
  existsb is_align (run c.1 inputs).2 = true /\
  existsb is_send (run c.1 inputs).2 = true.
Proof.
  intros c inputs.
  repeat split; vm_compute; reflexivity.
Qed.

(** The same failed load, up to the first scan: the error is the only event
    of the construction, the target is empty and the cycle aligns on it. *)
Lemma C3_failed_load_witness :
  let c := constructed (∅ : Overrides) in
  let inputs := [RegisteredScan (Example_world.near_scan 1)] in
  SmallGicpRelocalizationNode ∅ = Ok (c.1, c.2) /\
  loadPCDFile (prior_pcd_file_ c.1) = None /\
  c.2 = [CallLoadPCDFile ""; RCLCPP_ERROR "Couldn't read PCD file: %s" [ArgString ""]] /\
  target_ (run c.1 inputs).1 = [] /\
  In (CallAlign (registration_settings c.1) (target_ c.1)
        (preprocessed c.1 (Example_world.near_scan 1)) (target_tree_ c.1)
        Isometry3d_Identity
        (align (registration_settings c.1) (target_ c.1)
           (preprocessed c.1 (Example_world.near_scan 1)) (target_tree_ c.1)
           Isometry3d_Identity))
     (performRegistration (run c.1 inputs).1).2.
Proof.
  intros c inputs.
  assert (H1 : SmallGicpRelocalizationNode ∅ = Ok (c.1, c.2))
    by (vm_compute; reflexivity).
  assert (H2 : loadPCDFile (prior_pcd_file_ c.1) = None) by (vm_compute; reflexivity).
  assert (H3 : last_scan inputs = Some (Example_world.near_scan 1)) by reflexivity.
  assert (H4 : c.2 = [CallLoadPCDFile "";
                      RCLCPP_ERROR "Couldn't read PCD file: %s" [ArgString ""]])
    by (vm_compute; reflexivity).
  assert (H5 : target_ (run c.1 inputs).1 = []) by (vm_compute; reflexivity).
  pose proof (C3_failed_load_leaves_empty_target _ _ _ inputs H1 H2) as H.
  exact (conj H1 (conj H2 (conj H4 (conj H5
           (proj1 (proj2 (proj2 (proj2 (proj2 (proj2 (proj2 (proj2 H)))))))
              _ H3))))).
Defined.





End Concrete_runs.

(** ** Further properties of the callbacks *)

Section Further_properties.
Context `{W : World}.

Lemma count_app {A : Type} (f : A -> bool) (xs ys : list A) :
  count f (xs ++ ys) = count f xs + count f ys.
Proof.
  induction xs as [|x xs IH]; cbn; [done|]. rewrite IH. lia.
Qed.

(** A source, once installed, stays installed. *)
Lemma step_source_installed (n : Node) (i : Input) :
  is_Some (source_ n) -> is_Some (source_tree_ n) ->
  is_Some (source_ (step n i).1) /\ is_Some (source_tree_ (step n i).1).
Proof.
  intros Hs Ht. pose proof (step_snapshot n i) as H.
  destruct i as [msg| |].
  - destruct H as (-> & -> & _). split; by eexists.
  - destruct H as [-> ->]. done.
  - destruct H as [-> ->]. done.
Qed.

(** X1. When the configured [prior_pcd_file] loads, the constructor logs
    the INFO with its number of points after the one call of [loadPCDFile],
    and the cloud of the file is the reference for good: after any run
    [global_map_] is that cloud and [target_] is that cloud sampled with the
    configured [global_leaf_size] and given covariances with the configured
    neighbours and threads, and every alignment any run calls is made
    against that target and the tree built from it. *)
Theorem X1_alignment_target_is_loaded_map (overrides : Overrides) (n0 : Node)
    (events0 : list Event) (cloud : PointCloud) :
  SmallGicpRelocalizationNode overrides = Ok (n0, events0) ->
  loadPCDFile (configured_string overrides "prior_pcd_file" "") = Some cloud ->
  let reference :=
    estimate_covariances_omp
      (voxelgrid_sampling_omp cloud
         (configured_double overrides "global_leaf_size" F64.quarter))
      (configured_integer overrides "num_neighbors" 20)
      (configured_integer overrides "num_threads" 4) in
  events0 = [CallLoadPCDFile (configured_string overrides "prior_pcd_file" "");
             RCLCPP_INFO "Loaded global map with %zu points" [ArgSize (length cloud)]] /\
  (forall inputs : list Input,
     global_map_ (run n0 inputs).1 = cloud /\
     target_ (run n0 inputs).1 = reference /\
     target_tree_ (run n0 inputs).1
     = KdTreeOMP reference (configured_integer overrides "num_threads" 4)) /\
  (forall (inputs : list Input) (reg : Registration) (target source : PointCloudCov)
          (tree : KdTree) (init : Isometry3d) (result : RegistrationResult),
     In (CallAlign reg target source tree init result) (run n0 inputs).2 ->
     target = reference /\
     tree = KdTreeOMP reference (configured_integer overrides "num_threads" 4)).
Proof.
  intros Hctor Hload reference.
  apply constructor_Ok in Hctor as [_ Hn0].
  assert (Hbuilt :
    events0 = [CallLoadPCDFile (configured_string overrides "prior_pcd_file" "");
               RCLCPP_INFO "Loaded global map with %zu points" [ArgSize (length cloud)]] /\
    global_map_ n0 = cloud /\ target_ n0 = reference /\
    target_tree_ n0 = KdTreeOMP reference (configured_integer overrides "num_threads" 4)).
  { unfold constructed, loadGlobalMap in Hn0. rewrite Hload in Hn0.
    by injection Hn0 as -> ->. }
  destruct Hbuilt as (Hev & Hmap & Htarget & Htree).
  split; [done|]. split.
  - intros inputs.
    destruct (run_same_setup n0 inputs)
      as (_ & _ & _ & _ & _ & _ & _ & _ & Hgm & Htg & Htt).
    by rewrite Hgm, Htg, Htt.
  - intros inputs reg target source tree init result Hin.
    apply run_events in Hin as (before & i & after & _ & Hin).
    apply step_call in Hin as (_ & s & t & _ & _ & Heq); [|done].
    injection Heq as _ -> _ -> _ _.
    destruct (run_same_setup n0 before)
      as (_ & _ & _ & _ & _ & _ & _ & _ & _ & Htg & Htt).
    by rewrite Htg, Htt.
Qed.

(** X2. No callback writes the map, the target or its tree: after any run,
    with or without an alignment, they are those of the starting node; and
    every alignment the run calls is given that target, that tree and the
    configured settings. *)
Theorem X2_alignment_uses_fixed_target (n : Node) (inputs : list Input) :
  global_map_ (run n inputs).1 = global_map_ n /\
  target_ (run n inputs).1 = target_ n /\
  target_tree_ (run n inputs).1 = target_tree_ n /\
  (forall (reg : Registration) (target source : PointCloudCov) (tree : KdTree)
          (init : Isometry3d) (result : RegistrationResult),
     In (CallAlign reg target source tree init result) (run n inputs).2 ->
     target = target_ n /\ tree = target_tree_ n /\
     reg = MkRegistration (num_threads_ n) (max_dist_sq_ n)).
Proof.
  destruct (run_same_setup n inputs) as (_ & _ & _ & _ & _ & _ & _ & _ & Hgm & Htg' & Htt').
  split_and!; try done.
  intros reg target source tree init result Hin.
  apply run_events in Hin as (before & i & after & _ & Hin).
  apply step_call in Hin as (_ & s & t & _ & _ & Heq); [|done].
  injection Heq as -> -> _ -> _ _.
  destruct (run_same_setup n before) as (Hth & _ & _ & _ & Hd & _ & _ & _ & _ & Htg & Htt).
  unfold registration_settings. by rewrite Hth, Hd.
Qed.

(** X3. An alignment cycle works on the most recent scan: after any inputs
    whose latest scan is [scan], [registered_scan_] holds the points of
    [scan], and the cycle calls the solver first thing, on the cloud obtained
    from [scan] with the configured leaf size, neighbours and threads.
    Earlier scans leave no trace in the call. *)
Theorem X3_alignment_uses_latest_scan (n : Node) (inputs : list Input)
    (scan : PointCloud2) :
  last_scan inputs = Some scan ->
  source_ (run n inputs).1
  = Some (estimate_covariances_omp
            (voxelgrid_sampling_omp (fromROSMsg scan) (registered_leaf_size_ n))
            (num_neighbors_ n) (num_threads_ n)) /\
  exists result : RegistrationResult,
    hd_error (performRegistration (run n inputs).1).2
    = Some (CallAlign (MkRegistration (num_threads_ n) (max_dist_sq_ n)) (target_ n)
              (estimate_covariances_omp
                 (voxelgrid_sampling_omp (fromROSMsg scan) (registered_leaf_size_ n))
                 (num_neighbors_ n) (num_threads_ n))
              (target_tree_ n) Isometry3d_Identity result).
Proof.
  intros Hl.
  pose proof (run_snapshot n inputs) as Hsnap. rewrite Hl in Hsnap.
  destruct Hsnap as (Hs & Ht & _).
  destruct (run_same_setup n inputs) as (Hth & Hk & _ & Hleaf & Hd & _ & _ & _ & _ & Htg & Htt).
  unfold preprocessed in Hs, Ht. rewrite Hth, Hk, Hleaf in Hs, Ht.
  split; [done|].
  rewrite performRegistration_eq, Hs, Ht.
  unfold registration_call, registration_result, registration_settings.
  rewrite Hth, Hd, Htg, Htt.
  destruct (converged _); by eexists.
Qed.

(** X4. Scans replace each other: after any burst of scans ending with [b],
    the node holds the stamp and the points of [b], the cloud obtained from
    [b] with the configured leaf size, neighbours and threads, and the tree
    of that cloud; every other field is as before the burst, and nothing of
    the earlier scans is left. The burst causes no event. *)
Theorem X4_scans_replace_each_other (n : Node) (scans : list PointCloud2)
    (b : PointCloud2) :
  let source :=
    estimate_covariances_omp
      (voxelgrid_sampling_omp (fromROSMsg b) (registered_leaf_size_ n))
      (num_neighbors_ n) (num_threads_ n) in
  run n (map RegisteredScan scans ++ [RegisteredScan b])
  = (MkNode (num_threads_ n) (num_neighbors_ n) (global_leaf_size_ n)
       (registered_leaf_size_ n) (max_dist_sq_ n) (map_frame_id_ n) (odom_frame_id_ n)
       (prior_pcd_file_ n) (fromROSMsg b) (global_map_ n) (register_ n) (target_ n)
       (target_tree_ n) (Some source) (Some (KdTreeOMP source (num_threads_ n)))
       (header_stamp b) (result_T_ n),
     []).
Proof.
  cbv zeta. revert n. induction scans as [|a scans IH]; intros n.
  - by destruct n.
  - cbn [map app]. rewrite run_cons. cbn [step fst snd].
    rewrite IH. by destruct n.
Qed.

(** X5. [publishTransform] reads only: any number of ticks in a row leave
    the node as it is, and each of them emits what the first one emits. *)
Theorem X5_publish_ticks_repeat (n : Node) (k : nat) :
  run n (replicate k TransformTimer)
  = (n, concat (replicate k (publishTransform n).2)).
Proof.
  induction k as [|k IH]; [done|].
  cbn [replicate]. rewrite run_cons. cbn [step].
  rewrite publishTransform_node, IH. done.
Qed.

(** X6. What is published is the latest converged result, in single
    precision: when [r] is the result of the most recent converged alignment
    of a run, [publishTransform] sends one message whose translation is the
    translation of [r] rounded to [float], whose rotation is the quaternion
    of the linear part of [r] rounded to [float], and whose stamp is
    [last_scan_time_]. *)
Theorem X6_published_transform_is_latest_result (n : Node) (inputs : list Input)
    (r : RegistrationResult) :
  latest_converged (run n inputs).2 = Some r ->
  exists msg : TransformStamped,
    (publishTransform (run n inputs).1).2 = [SendTransform msg] /\
    stamp msg = last_scan_time_ (run n inputs).1 /\
    frame_id msg = map_frame_id_ n /\
    child_frame_id msg = odom_frame_id_ n /\
    translation_x msg = F64.of_float (F32.of_double (vx (translation (T_target_source r)))) /\
    translation_y msg = F64.of_float (F32.of_double (vy (translation (T_target_source r)))) /\
    translation_z msg = F64.of_float (F32.of_double (vz (translation (T_target_source r)))) /\
    (rotation_x msg, rotation_y msg, rotation_z msg, rotation_w msg)
    = (let q := Quaternionf_of_matrix
                  (block (cast_float (matrix (T_target_source r))) 0 0) in
       (F64.of_float (qx q), F64.of_float (qy q), F64.of_float (qz q),
        F64.of_float (qw q))).
Proof.
  intros Hr.
  assert (HT : result_T_ (run n inputs).1 = cast_float (matrix (T_target_source r))).
  { rewrite run_result_T. unfold stored_result. by rewrite Hr. }
  destruct (run_same_setup n inputs) as (_ & _ & _ & _ & _ & Hm & Ho & _).
  exists (transform_of (run n inputs).1).
  rewrite publishTransform_present by (rewrite HT; apply isZero_cast_matrix).
  unfold transform_of. rewrite HT, Hm, Ho. cbn. done.
Qed.

(** X8. A run of callbacks causes three kinds of events only: alignment
    calls, the warning "GICP did not converge." and broadcast transforms.
    The warnings are as many as the alignments that did not converge. *)
Theorem X8_one_warning_per_nonconverged_alignment (n : Node) (inputs : list Input) :
  forallb is_callback_event (run n inputs).2 = true /\
  count is_warn (run n inputs).2 = count is_nonconverged_align (run n inputs).2.
Proof.
  revert n. induction inputs as [|i rest IH]; intros n; [done|].
  rewrite run_cons. cbn [snd]. rewrite forallb_app, !count_app.
  destruct (IH (step n i).1) as [-> ->]. rewrite andb_true_r.
  assert (Hstep : forallb is_callback_event (step n i).2 = true /\
                  count is_warn (step n i).2 = count is_nonconverged_align (step n i).2).
  { destruct i as [msg| |]; cbn [step].
    - done.
    - destruct (performRegistration_outcome n) as [Hs|s t Hs Ht Hc|s t Hs Ht Hc]; cbn;
        [done| |];
        change (converged (align (registration_settings n) (target_ n) s (target_tree_ n)
                             Isometry3d_Identity))
          with (converged (registration_result n s)); by rewrite Hc.
    - unfold publishTransform. by destruct (isZero (result_T_ n)). }
  destruct Hstep as [-> ->]. done.
Qed.

(** X9. Once a source and its tree are installed, every tick of the
    registration timer calls the solver exactly once, whatever else happens
    in between: the alignment calls of a run are as many as its ticks of
    [register_timer_]. *)
Theorem X9_one_alignment_per_tick (n : Node) (inputs : list Input) :
  is_Some (source_ n) -> is_Some (source_tree_ n) ->
  count is_align (run n inputs).2 = count is_register_timer inputs.
Proof.
  revert n. induction inputs as [|i rest IH]; intros n Hs Ht; [done|].
  rewrite run_cons. cbn [snd count]. rewrite count_app.
  destruct (step_source_installed n i Hs Ht) as [Hs' Ht'].
  rewrite (IH _ Hs' Ht'). f_equal.
  destruct i as [msg| |]; cbn [step is_register_timer].
  - done.
  - destruct Hs as [s Hs], Ht as [t Ht].
    rewrite performRegistration_eq, Hs, Ht.
    by destruct (converged (registration_result n s)).
  - unfold publishTransform. by destruct (isZero (result_T_ n)).
Qed.

(** X10. Once [result_T_] is not zero, every tick of the transform timer
    broadcasts exactly one transform, whatever else happens in between: the
    transforms sent in a run are as many as its ticks of [transform_timer_]. *)
Theorem X10_one_transform_per_tick (n : Node) (inputs : list Input) :
  isZero (result_T_ n) = false ->
  count is_send (run n inputs).2 = count is_transform_timer inputs.
Proof.
  revert n. induction inputs as [|i rest IH]; intros n Hz; [done|].
  rewrite run_cons. cbn [snd count]. rewrite count_app.
  assert (Hz' : isZero (result_T_ (step n i).1) = false).
  { rewrite step_result_T. unfold stored_result.
    destruct (latest_converged (step n i).2); [apply isZero_cast_matrix | done]. }
  rewrite (IH _ Hz'). f_equal.
  destruct i as [msg| |]; cbn [step is_transform_timer].
  - done.
  - by destruct (performRegistration_outcome n).
  - by rewrite publishTransform_present.
Qed.

(** X11. [performRegistration] writes [register_] and [result_T_] and
    nothing else: the scan, the source, its tree, the scan time, the map, the
    target and the configuration are as before; and [register_] is as before
    (a skipped cycle) or holds the configured threads and distance. *)
Theorem X11_registration_writes_two_fields (n : Node) :
  registered_scan_ (performRegistration n).1 = registered_scan_ n /\
  source_ (performRegistration n).1 = source_ n /\
  source_tree_ (performRegistration n).1 = source_tree_ n /\
  last_scan_time_ (performRegistration n).1 = last_scan_time_ n /\
  global_map_ (performRegistration n).1 = global_map_ n /\
  target_ (performRegistration n).1 = target_ n /\
  target_tree_ (performRegistration n).1 = target_tree_ n /\
  (num_threads_ (performRegistration n).1, num_neighbors_ (performRegistration n).1,
   global_leaf_size_ (performRegistration n).1, registered_leaf_size_ (performRegistration n).1,
   max_dist_sq_ (performRegistration n).1, map_frame_id_ (performRegistration n).1,
   odom_frame_id_ (performRegistration n).1, prior_pcd_file_ (performRegistration n).1)
  = (num_threads_ n, num_neighbors_ n, global_leaf_size_ n, registered_leaf_size_ n,
     max_dist_sq_ n, map_frame_id_ n, odom_frame_id_ n, prior_pcd_file_ n) /\
  (register_ (performRegistration n).1 = register_ n /\ (performRegistration n).2 = [] \/
   register_ (performRegistration n).1 = MkRegistration (num_threads_ n) (max_dist_sq_ n)).
Proof.
  destruct (performRegistration_outcome n); cbn; split_and!; try done.
  - by left.
  - by right.
  - by right.
Qed.

(** X12. Publishing observes and nothing more: a run with its ticks of the
    transform timer taken out ends in the same node, and causes the same
    events but for the transforms sent. *)
Theorem X12_publishing_does_not_interfere (n : Node) (inputs : list Input) :
  (run n (List.filter (fun i => negb (is_transform_timer i)) inputs)).1 = (run n inputs).1 /\
  (run n (List.filter (fun i => negb (is_transform_timer i)) inputs)).2
  = List.filter (fun e => negb (is_send e)) (run n inputs).2.
Proof.
  revert n. induction inputs as [|i rest IH]; intros n; [done|].
  rewrite (run_cons n i rest). cbn [fst snd]. rewrite List.filter_app.
  destruct i as [msg| |]; cbn [List.filter is_transform_timer negb].
  - rewrite run_cons. cbn [fst snd step].
    destruct (IH (registeredPcdCallback msg n).1) as [-> ->]. done.
  - rewrite run_cons. cbn [fst snd step].
    destruct (IH (performRegistration n).1) as [-> ->]. split; [done|]. f_equal.
    by destruct (performRegistration_outcome n).
  - cbn [step]. rewrite publishTransform_node.
    destruct (IH n) as [-> ->]. split; [done|].
    unfold publishTransform. by destruct (isZero (result_T_ n)).
Qed.

End Further_properties.

(** ** The further properties on concrete runs *)

Section Concrete_properties.
#[local] Existing Instance Example_world.world.

(** The map file of the example world loads: two points, and the
    alignment after a scan is made against them. *)
Lemma X1_loaded_map_witness :
  let c := constructed Example_world.with_map in
  let cloud := [MkPointXYZ F32.zero F32.zero F32.zero; MkPointXYZ F32.one F32.zero F32.zero] in
  let reference :=
    estimate_covariances_omp
      (voxelgrid_sampling_omp cloud
         (configured_double Example_world.with_map "global_leaf_size" F64.quarter))
      (configured_integer Example_world.with_map "num_neighbors" 20)
      (configured_integer Example_world.with_map "num_threads" 4) in
  let inputs := [RegisteredScan (Example_world.near_scan 1); RegisterTimer] in
  SmallGicpRelocalizationNode Example_world.with_map = Ok (c.1, c.2) /\
  loadPCDFile (configured_string Example_world.with_map "prior_pcd_file" "") = Some cloud /\
  c.2 = [CallLoadPCDFile (configured_string Example_world.with_map "prior_pcd_file" "");
         RCLCPP_INFO "Loaded global map with %zu points" [ArgSize (length cloud)]] /\
  existsb is_align (run c.1 inputs).2 = true /\
  global_map_ (run c.1 inputs).1 = cloud /\
  target_ (run c.1 inputs).1 = reference.
Proof.
  intros c cloud reference inputs.
  assert (H1 : SmallGicpRelocalizationNode Example_world.with_map = Ok (c.1, c.2))
    by (vm_compute; reflexivity).
  assert (H2 : loadPCDFile (configured_string Example_world.with_map "prior_pcd_file" "")
               = Some cloud) by (vm_compute; reflexivity).
  assert (H3 : existsb is_align (run c.1 inputs).2 = true) by (vm_compute; reflexivity).
  pose proof (X1_alignment_target_is_loaded_map _ _ _ cloud H1 H2) as H.
  exact (conj H1 (conj H2 (conj (proj1 H) (conj H3
           (conj (proj1 (proj1 (proj2 H) inputs))
                 (proj1 (proj2 (proj1 (proj2 H) inputs)))))))).
Defined.

(** An alignment after one scan: on the target of the map. *)
Lemma X2_fixed_target_witness :
  let n := Example_world.node_of Example_world.with_map in
  let inputs := [RegisteredScan (Example_world.near_scan 1); RegisterTimer] in
  let source := preprocessed n (Example_world.near_scan 1) in
  let call := CallAlign (registration_settings n) (target_ n) source (target_tree_ n)
                Isometry3d_Identity (registration_result n source) in
  In call (run n inputs).2 /\
  target_ (run n inputs).1 = target_ n /\
  target_tree_ (run n inputs).1 = target_tree_ n.
Proof.
  intros n inputs source call.
  assert (H1 : In call (run n inputs).2) by (vm_compute; left; reflexivity).
  pose proof (X2_alignment_uses_fixed_target n inputs) as H.
  exact (conj H1 (conj (proj1 (proj2 H)) (proj1 (proj2 (proj2 H))))).
Defined.

(** Two scans, then a tick: the second scan is aligned. *)
Lemma X3_latest_scan_witness :
  let n := Example_world.node_of Example_world.with_map in
  let inputs := [RegisteredScan (Example_world.near_scan 1);
                 RegisteredScan (Example_world.far_scan 2)] in
  let source := estimate_covariances_omp
                  (voxelgrid_sampling_omp (fromROSMsg (Example_world.far_scan 2))
                     (registered_leaf_size_ n))
                  (num_neighbors_ n) (num_threads_ n) in
  last_scan inputs = Some (Example_world.far_scan 2) /\
  source_ (run n inputs).1 = Some source /\
  exists result : RegistrationResult,
    hd_error (performRegistration (run n inputs).1).2
    = Some (CallAlign (MkRegistration (num_threads_ n) (max_dist_sq_ n)) (target_ n)
              source (target_tree_ n) Isometry3d_Identity result).
Proof.
  intros n inputs source.
  assert (H1 : last_scan inputs = Some (Example_world.far_scan 2)) by reflexivity.
  exact (conj H1 (X3_alignment_uses_latest_scan n inputs _ H1)).
Defined.

(** A converged alignment, then a rejected one: the first is published. *)
Lemma X6_published_result_witness :
  let n := Example_world.node_of Example_world.with_map in
  let n1 := (run n [RegisteredScan (Example_world.near_scan 1)]).1 in
  let r := registration_result n1 (preprocessed n1 (Example_world.near_scan 1)) in
  let inputs := [RegisteredScan (Example_world.near_scan 1); RegisterTimer;
                 RegisteredScan (Example_world.far_scan 2); RegisterTimer] in
  latest_converged (run n inputs).2 = Some r /\
  exists msg : TransformStamped,
    (publishTransform (run n inputs).1).2 = [SendTransform msg] /\
    stamp msg = last_scan_time_ (run n inputs).1 /\
    frame_id msg = map_frame_id_ n /\
    child_frame_id msg = odom_frame_id_ n /\
    translation_x msg = F64.of_float (F32.of_double (vx (translation (T_target_source r)))) /\
    translation_y msg = F64.of_float (F32.of_double (vy (translation (T_target_source r)))) /\
    translation_z msg = F64.of_float (F32.of_double (vz (translation (T_target_source r)))) /\
    (rotation_x msg, rotation_y msg, rotation_z msg, rotation_w msg)
    = (let q := Quaternionf_of_matrix
                  (block (cast_float (matrix (T_target_source r))) 0 0) in
       (F64.of_float (qx q), F64.of_float (qy q), F64.of_float (qz q),
        F64.of_float (qw q))).
Proof.
  intros n n1 r inputs.
  assert (H1 : latest_converged (run n inputs).2 = Some r) by (vm_compute; reflexivity).
  exact (conj H1 (X6_published_transform_is_latest_result n inputs r H1)).
Defined.

(** Two registration ticks among other inputs: two alignment calls. *)
Lemma X9_alignment_count_witness :
  let n := (run (Example_world.node_of Example_world.with_map)
              [RegisteredScan (Example_world.near_scan 1)]).1 in
  let inputs := [RegisterTimer; TransformTimer; RegisteredScan (Example_world.far_scan 2);
                 RegisterTimer] in
  is_Some (source_ n) /\ is_Some (source_tree_ n) /\
  count is_register_timer inputs = 2 /\
  count is_align (run n inputs).2 = count is_register_timer inputs.
Proof.
  intros n inputs.
  assert (H1 : is_Some (source_ n)) by (eexists; vm_compute; reflexivity).
  assert (H2 : is_Some (source_tree_ n)) by (eexists; vm_compute; reflexivity).
  exact (conj H1 (conj H2 (conj eq_refl (X9_one_alignment_per_tick n inputs H1 H2)))).
Defined.

(** Two transform ticks after a converged alignment: two transforms. *)
Lemma X10_transform_count_witness :
  let n := (run (Example_world.node_of Example_world.with_map)
              [RegisteredScan (Example_world.near_scan 1); RegisterTimer]).1 in
  let inputs := [TransformTimer; RegisteredScan (Example_world.far_scan 2);
                 RegisterTimer; TransformTimer] in
  isZero (result_T_ n) = false /\
  count is_transform_timer inputs = 2 /\
  count is_send (run n inputs).2 = count is_transform_timer inputs.
Proof.
  intros n inputs.
  assert (H1 : isZero (result_T_ n) = false) by (vm_compute; reflexivity).
  exact (conj H1 (conj eq_refl (X10_one_transform_per_tick n inputs H1))).
Defined.

End Concrete_properties.
